(** * vex-lang-types: the type bridge and its mapping engine

    A shallow embedding of [src/Types.ts], of its unnamed duplicate
    ([src/unnamed/part_000]) and of [src/TypeMapper.ts], together with the
    properties the specification states about them.

    Layout: the host language first (module [JS]: Number values, the
    builtins the sources call, property lookup on object literals), then
    the two copies of the type system, then the mapping engine, then the
    theorems. *)

From Stdlib Require Import ZArith List String Ascii Bool Lia.
From Stdlib Require Import Floats.SpecFloat.
From Stdlib Require DecimalString.
Import ListNotations.

Set Warnings "-register-all".

Local Open Scope string_scope.
Local Open Scope Z_scope.

(* ================================================================== *)
(** * The host language                                                 *)
(* ================================================================== *)

Module JS.

(** ** Number values

    A Number is an IEEE 754 binary64 datum: a signed zero, a signed
    infinity, NaN, or [S754_finite s m e] standing for [(-1)^s * m * 2^e]. *)

Definition number : Type := spec_float.

Definition NaN : number := S754_nan.
Definition Infinity : number := S754_infinity false.

(** The mathematical value of a Number that is not NaN: an infinity or a
    dyadic rational [m * 2^e]. *)

Inductive xreal : Type :=
| NegInf
| Dyadic (m e : Z)
| PosInf.

Definition mathematical (x : number) : option xreal :=
  match x with
  | S754_nan => None
  | S754_infinity s => Some (if s then NegInf else PosInf)
  | S754_zero _ => Some (Dyadic 0 0)
  | S754_finite s m e => Some (Dyadic (if s then Zneg m else Zpos m) e)
  end.

(** [m1 * 2^e1] against [m2 * 2^e2], both brought to the smaller exponent. *)

Definition dyadic_compare (m1 e1 m2 e2 : Z) : comparison :=
  let e := Z.min e1 e2 in
  Z.compare (m1 * 2 ^ (e1 - e)) (m2 * 2 ^ (e2 - e)).

Definition xcompare (a b : xreal) : comparison :=
  match a, b with
  | NegInf, NegInf => Eq
  | NegInf, _ => Lt
  | _, NegInf => Gt
  | PosInf, PosInf => Eq
  | PosInf, _ => Gt
  | _, PosInf => Lt
  | Dyadic m1 e1, Dyadic m2 e2 => dyadic_compare m1 e1 m2 e2
  end.

(** The relational operators on Numbers compare mathematical values; every
    comparison with NaN is false. *)

Definition compare (x y : number) : option comparison :=
  match mathematical x, mathematical y with
  | Some a, Some b => Some (xcompare a b)
  | _, _ => None
  end.

Definition lt (x y : number) : bool :=
  match compare x y with Some Lt => true | _ => false end.

Definition gt (x y : number) : bool := lt y x.

Definition le (x y : number) : bool :=
  match compare x y with Some Lt | Some Eq => true | _ => false end.

Definition ge (x y : number) : bool := le y x.

(** [Number.isInteger]: finite, and equal to its own truncation. *)

Definition Number_isInteger (x : number) : bool :=
  match x with
  | S754_zero _ => true
  | S754_finite _ m e =>
      if 0 <=? e then true else Zpos m mod 2 ^ (- e) =? 0
  | S754_infinity _ | S754_nan => false
  end.

(** [Math.abs] clears the sign; NaN stays NaN. *)

Definition Math_abs (x : number) : number :=
  match x with
  | S754_nan => S754_nan
  | S754_infinity _ => S754_infinity false
  | S754_zero _ => S754_zero false
  | S754_finite _ m e => S754_finite false m e
  end.

(** ** Rounding to binary64

    [round_binary64 neg n d] is the Number nearest to [(-1)^neg * n / d]
    ([0 <= n], [0 < d]), ties going to the even significand: the rounding
    that turns a decimal literal, or the text given to [parseFloat], into a
    Number. *)

Definition floor_quot_pow2 (n d e : Z) : Z :=
  (n * 2 ^ Z.max 0 (- e)) / (d * 2 ^ Z.max 0 e).

Definition floor_log2_ratio (n d : Z) : Z :=
  let k := Z.log2 n - Z.log2 d in
  if 1 <=? floor_quot_pow2 n d k then k else k - 1.

Definition round_binary64 (neg : bool) (n d : Z) : number :=
  if n <=? 0 then S754_zero neg
  else
    let e := Z.max (floor_log2_ratio n d - 52) (-1074) in
    let num := n * 2 ^ Z.max 0 (- e) in
    let den := d * 2 ^ Z.max 0 e in
    let q := num / den in
    let r := num mod den in
    let m :=
      match Z.compare (2 * r) den with
      | Lt => q
      | Gt => q + 1
      | Eq => if Z.even q then q else q + 1
      end in
    let '(m', e') := if m =? 2 ^ 53 then (2 ^ 52, e + 1) else (m, e) in
    if 971 <? e' then S754_infinity neg
    else
      match m' with
      | Zpos p => S754_finite neg p e'
      | _ => S754_zero neg
      end.

(** An integer literal, and a decimal literal [digits * 10^exponent]. *)

Definition number_of_Z (z : Z) : number :=
  round_binary64 (z <? 0) (Z.abs z) 1.

Definition number_of_decimal (neg : bool) (digits exponent : Z) : number :=
  if 0 <=? exponent
  then round_binary64 neg (digits * 10 ^ exponent) 1
  else round_binary64 neg digits (10 ^ (- exponent)).

Definition MAX_SAFE_INTEGER : number := number_of_Z (2 ^ 53 - 1).
Definition MIN_SAFE_INTEGER : number := number_of_Z (- (2 ^ 53 - 1)).

(** ** Strings

    A string is its sequence of code units, each one an [ascii] here. *)

(** The integer a whole Number is. *)

Definition whole_value (x : number) : option Z :=
  match x with
  | S754_zero _ => Some 0
  | S754_finite s m e =>
      let sm := if s then Zneg m else Zpos m in
      if 0 <=? e then Some (sm * 2 ^ e)
      else if Zpos m mod 2 ^ (- e) =? 0 then Some (sm / 2 ^ (- e))
      else None
  | S754_infinity _ | S754_nan => None
  end.

(** [Number::toString], for the whole Numbers below [2^53] in magnitude:
    such a Number is rendered as the decimal digits of its integer.  The
    rendering of the other Numbers (shortest round-trip digits, exponent
    notation) is not spelled out. *)

Definition NumberToString_whole (x : number) : option string :=
  match whole_value x with
  | Some z =>
      if Z.abs z <? 2 ^ 53
      then Some ((if z <? 0 then "-" else "")
                   ++ DecimalString.NilZero.string_of_uint
                        (N.to_uint (Z.to_N (Z.abs z))))
      else None
  | None => None
  end.

Definition dquote : string := String (ascii_of_nat 34) EmptyString.

(** [String.prototype.includes]. *)

Fixpoint includes (s sub : string) : bool :=
  prefix sub s
  || match s with
     | String _ s' => includes s' sub
     | EmptyString => false
     end.

(** The [||] operator on a string: the empty string is falsy. *)

Definition or_else (s fallback : string) : string :=
  match s with
  | EmptyString => fallback
  | _ => s
  end.

(** ** [parseFloat]

    Leading white space is dropped (of the white space code units, those
    an [ascii] can hold: TAB to CR, SP, NBSP), then the longest prefix
    that is a decimal literal (sign, [Infinity] or digits with an optional
    fraction and exponent) is read and rounded; without such a prefix the
    result is NaN. *)

Definition is_white_space (c : ascii) : bool :=
  let n := Z.of_N (N_of_ascii c) in
  ((9 <=? n) && (n <=? 13)) || (n =? 32) || (n =? 160).

Definition is_digit (c : ascii) : bool :=
  let n := Z.of_N (N_of_ascii c) in
  (48 <=? n) && (n <=? 57).

Definition digit_value (c : ascii) : Z := Z.of_N (N_of_ascii c) - 48.

Fixpoint trimStart (s : string) : string :=
  match s with
  | String c s' => if is_white_space c then trimStart s' else s
  | EmptyString => s
  end.

(** Reads a run of digits: the value read so far, how many digits were
    read, and the rest of the text. *)

Fixpoint DecimalDigits (s : string) (value count : Z) : Z * Z * string :=
  match s with
  | String c s' =>
      if is_digit c
      then DecimalDigits s' (10 * value + digit_value c) (count + 1)
      else (value, count, s)
  | EmptyString => (value, count, s)
  end.

Definition read_sign (s : string) : bool * string :=
  match s with
  | String "-"%char s' => (true, s')
  | String "+"%char s' => (false, s')
  | _ => (false, s)
  end.

(** An exponent part counts only when it has a digit. *)

Definition ExponentPart (s : string) : Z :=
  match s with
  | String c s' =>
      if (Ascii.eqb c "e" || Ascii.eqb c "E")%bool
      then
        let '(eneg, s'') := read_sign s' in
        let '(v, count, _) := DecimalDigits s'' 0 0 in
        if count =? 0 then 0 else if eneg then - v else v
      else 0
  | EmptyString => 0
  end.

Definition parseFloat (input : string) : number :=
  let '(neg, s) := read_sign (trimStart input) in
  if prefix "Infinity" s then S754_infinity neg
  else
    let '(int_part, int_count, s1) := DecimalDigits s 0 0 in
    let '(digits, frac_count, s2) :=
      match s1 with
      | String "."%char s' => DecimalDigits s' int_part 0
      | _ => (int_part, 0, s1)
      end in
    if int_count + frac_count =? 0 then NaN
    else number_of_decimal neg digits (ExponentPart s2 - frac_count).

(** ** Property lookup on an object literal

    An object literal is the list of its own properties; it inherits the
    members of [Object.prototype] (the properties the language standard
    gives that object, legacy accessors included), which property access
    ([o[k]]) and the [in] operator both reach when [o] has no own
    property [k]. *)

Definition ObjectPrototype : list string :=
  [ "constructor"; "hasOwnProperty"; "isPrototypeOf"; "propertyIsEnumerable";
    "toLocaleString"; "toString"; "valueOf";
    "__proto__"; "__defineGetter__"; "__defineSetter__";
    "__lookupGetter__"; "__lookupSetter__" ].

Inductive property (A : Type) : Type :=
| Own (a : A)
| Inherited (key : string)
| Undefined.

Arguments Own {A} a.
Arguments Inherited {A} key.
Arguments Undefined {A}.

Fixpoint own_property {A : Type} (o : list (string * A)) (key : string)
  : option A :=
  match o with
  | [] => None
  | (k, a) :: o' => if String.eqb k key then Some a else own_property o' key
  end.

Definition Get {A : Type} (o : list (string * A)) (key : string)
  : property A :=
  match own_property o key with
  | Some a => Own a
  | None =>
      if existsb (String.eqb key) ObjectPrototype
      then Inherited key
      else Undefined
  end.

(** [key in o]. *)

Definition HasProperty {A : Type} (o : list (string * A)) (key : string)
  : bool :=
  match Get o key with
  | Undefined => false
  | _ => true
  end.

(** What one host, V8, prints for the members of [Object.prototype]. *)

Definition v8_nativeText (key : string) : string :=
  if String.eqb key "__proto__" then "[object Object]"
  else if String.eqb key "constructor"
  then "function Object() { [native code] }"
  else "function " ++ key ++ "() { [native code] }".

(** ** Exceptions

    A template literal is kept as its parts: literal text and substituted
    strings as [Chars], a substituted Number as [Subst] (its decimal
    rendering is not spelled out). *)

Inductive template_part : Type :=
| Chars (s : string)
| Subst (v : number).

Inductive exception : Type :=
| TypeError (message : list template_part)
| RangeError (message : list template_part).

Inductive completion (A : Type) : Type :=
| Return (a : A)
| Throw (e : exception).

Arguments Return {A} a.
Arguments Throw {A} e.

End JS.

(* ================================================================== *)
(** * [src/Types.ts]                                                    *)
(* ================================================================== *)

Module Types.
Import JS.

(** ** Constructors with runtime validation *)

Definition int (value : number) : completion number :=
  if negb (Number_isInteger value)
  then Throw (TypeError [Chars "int requires an integer value, got ";
                         Subst value])
  else if lt value (number_of_Z (-2147483648))
          || gt value (number_of_Z 2147483647)
  then Throw (RangeError [Chars "int overflow: "; Subst value;
                          Chars " is out of range [-2147483648, 2147483647]"])
  else Return value.

Definition short (value : number) : completion number :=
  if negb (Number_isInteger value)
  then Throw (TypeError [Chars "short requires an integer value, got ";
                         Subst value])
  else if lt value (number_of_Z (-32768)) || gt value (number_of_Z 32767)
  then Throw (RangeError [Chars "short overflow: "; Subst value;
                          Chars " is out of range [-32768, 32767]"])
  else Return value.

Definition long (value : number) : completion number :=
  if negb (Number_isInteger value)
  then Throw (TypeError [Chars "long requires an integer value, got ";
                         Subst value])
  else if lt value MIN_SAFE_INTEGER || gt value MAX_SAFE_INTEGER
  then Throw (RangeError [Chars "long overflow: "; Subst value;
                          Chars " is out of safe integer range"])
  else Return value.

(** The literals [3.4028235e38] and [1.175494e-38]. *)

Definition float_max : number := number_of_decimal false 34028235 31.
Definition float_min : number := number_of_decimal false 1175494 (-44).

Definition float (value : number) : completion number :=
  let absValue := Math_abs value in
  if gt absValue float_max
  then Throw (RangeError [Chars "float overflow: "; Subst value;
                          Chars " exceeds maximum float value"])
  else if gt absValue (number_of_Z 0) && lt absValue float_min
  then Throw (RangeError [Chars "float underflow: "; Subst value;
                          Chars " is below minimum float value"])
  else Return value.

Definition double (value : number) : completion number := Return value.

Definition bool (value : Datatypes.bool) : completion Datatypes.bool :=
  Return value.

Definition char (value : string) : completion string :=
  if negb (Nat.eqb (String.length value) 1)
  then Throw (TypeError
                [Chars "char requires exactly one character, got ";
                 Chars dquote; Chars value; Chars dquote;
                 Chars " (length: ";
                 Subst (number_of_Z (Z.of_nat (String.length value)));
                 Chars ")"])
  else Return value.

(** ** Type metadata *)

Record TypeMetadata : Type := {
  name : string;
  cppType : string;
  size : number;
  min : option number;
  max : option number
}.

Definition TYPE_METADATA : list (string * TypeMetadata) :=
  [ ("int", {| name := "int"; cppType := "int32_t"; size := number_of_Z 4;
               min := Some (number_of_Z (-2147483648));
               max := Some (number_of_Z 2147483647) |});
    ("short", {| name := "short"; cppType := "int16_t"; size := number_of_Z 2;
                 min := Some (number_of_Z (-32768));
                 max := Some (number_of_Z 32767) |});
    ("long", {| name := "long"; cppType := "int64_t"; size := number_of_Z 8;
                min := Some MIN_SAFE_INTEGER;
                max := Some MAX_SAFE_INTEGER |});
    ("float", {| name := "float"; cppType := "float"; size := number_of_Z 4;
                 min := None; max := None |});
    ("double", {| name := "double"; cppType := "double";
                  size := number_of_Z 8; min := None; max := None |});
    ("bool", {| name := "bool"; cppType := "bool"; size := number_of_Z 1;
                min := None; max := None |});
    ("char", {| name := "char"; cppType := "char"; size := number_of_Z 1;
                min := None; max := None |});
    ("string", {| name := "string"; cppType := "std::string";
                  size := number_of_Z (-1); min := None; max := None |});
    ("void", {| name := "void"; cppType := "void"; size := number_of_Z 0;
                min := None; max := None |}) ].

(** [TYPE_METADATA[typeName]?.cppType || 'auto']: a member inherited from
    [Object.prototype] has no [cppType] property. *)

Definition getCppType (typeName : string) : string :=
  match Get TYPE_METADATA typeName with
  | Own metadata => or_else (cppType metadata) "auto"
  | Inherited _ => "auto"
  | Undefined => "auto"
  end.

Definition isWithinBounds (value : number) (typeName : string)
  : Datatypes.bool :=
  match Get TYPE_METADATA typeName with
  | Own metadata =>
      match min metadata, max metadata with
      | Some lo, Some hi => ge value lo && le value hi
      | _, _ => true
      end
  | Inherited _ => true
  | Undefined => true
  end.

(** ** The function wrapper *)

Record Param : Type := {
  param_name : string;
  param_type : string
}.

Record VexFunction (F : Type) : Type := {
  fn_name : string;
  returnType : string;
  parameters : list Param;
  func : F
}.

Arguments fn_name {F} _.
Arguments returnType {F} _.
Arguments parameters {F} _.
Arguments func {F} _.

Definition getCppSignature {F : Type} (this : VexFunction F) : string :=
  let params :=
    String.concat ", "
      (map (fun p => getCppType (param_type p) ++ " " ++ param_name p)
           (parameters this)) in
  getCppType (returnType this) ++ " " ++ fn_name this
    ++ "(" ++ params ++ ")".

(** ** Type utilities *)

Definition isIntegerType (typeName : string) : Datatypes.bool :=
  existsb (String.eqb typeName) ["int"; "short"; "long"].

Definition isFloatingType (typeName : string) : Datatypes.bool :=
  existsb (String.eqb typeName) ["float"; "double"].

Definition isNumericType (typeName : string) : Datatypes.bool :=
  isIntegerType typeName || isFloatingType typeName.

Definition isPrimitiveType (typeName : string) : Datatypes.bool :=
  HasProperty TYPE_METADATA typeName.

End Types.

(* ================================================================== *)
(** * [src/unnamed/part_000]: the Liquid Script copy                   *)
(* ================================================================== *)

Module Part000.
Import JS.

(** ** Type constructors with runtime validation *)

Definition int (value : number) : completion number :=
  if negb (Number_isInteger value)
  then Throw (TypeError [Chars "int requires an integer value, got ";
                         Subst value])
  else if lt value (number_of_Z (-2147483648))
          || gt value (number_of_Z 2147483647)
  then Throw (RangeError [Chars "int overflow: "; Subst value;
                          Chars " is out of range [-2147483648, 2147483647]"])
  else Return value.

Definition short (value : number) : completion number :=
  if negb (Number_isInteger value)
  then Throw (TypeError [Chars "short requires an integer value, got ";
                         Subst value])
  else if lt value (number_of_Z (-32768)) || gt value (number_of_Z 32767)
  then Throw (RangeError [Chars "short overflow: "; Subst value;
                          Chars " is out of range [-32768, 32767]"])
  else Return value.

Definition long (value : number) : completion number :=
  if negb (Number_isInteger value)
  then Throw (TypeError [Chars "long requires an integer value, got ";
                         Subst value])
  else if lt value MIN_SAFE_INTEGER || gt value MAX_SAFE_INTEGER
  then Throw (RangeError [Chars "long overflow: "; Subst value;
                          Chars " is out of safe integer range"])
  else Return value.

(** The literals [3.4028235e38] and [1.175494e-38]. *)

Definition float_max : number := number_of_decimal false 34028235 31.
Definition float_min : number := number_of_decimal false 1175494 (-44).

Definition float (value : number) : completion number :=
  let absValue := Math_abs value in
  if gt absValue float_max
  then Throw (RangeError [Chars "float overflow: "; Subst value;
                          Chars " exceeds maximum float value"])
  else if gt absValue (number_of_Z 0) && lt absValue float_min
  then Throw (RangeError [Chars "float underflow: "; Subst value;
                          Chars " is below minimum float value"])
  else Return value.

Definition double (value : number) : completion number := Return value.

Definition bool (value : Datatypes.bool) : completion Datatypes.bool :=
  Return value.

Definition char (value : string) : completion string :=
  if negb (Nat.eqb (String.length value) 1)
  then Throw (TypeError
                [Chars "char requires exactly one character, got ";
                 Chars dquote; Chars value; Chars dquote;
                 Chars " (length: ";
                 Subst (number_of_Z (Z.of_nat (String.length value)));
                 Chars ")"])
  else Return value.

(** ** Type metadata *)

Record TypeMetadata : Type := {
  name : string;
  cppType : string;
  size : number;
  min : option number;
  max : option number
}.

Definition TYPE_METADATA : list (string * TypeMetadata) :=
  [ ("int", {| name := "int"; cppType := "int32_t"; size := number_of_Z 4;
               min := Some (number_of_Z (-2147483648));
               max := Some (number_of_Z 2147483647) |});
    ("short", {| name := "short"; cppType := "int16_t"; size := number_of_Z 2;
                 min := Some (number_of_Z (-32768));
                 max := Some (number_of_Z 32767) |});
    ("long", {| name := "long"; cppType := "int64_t"; size := number_of_Z 8;
                min := Some MIN_SAFE_INTEGER;
                max := Some MAX_SAFE_INTEGER |});
    ("float", {| name := "float"; cppType := "float"; size := number_of_Z 4;
                 min := None; max := None |});
    ("double", {| name := "double"; cppType := "double";
                  size := number_of_Z 8; min := None; max := None |});
    ("bool", {| name := "bool"; cppType := "bool"; size := number_of_Z 1;
                min := None; max := None |});
    ("char", {| name := "char"; cppType := "char"; size := number_of_Z 1;
                min := None; max := None |});
    ("string", {| name := "string"; cppType := "std::string";
                  size := number_of_Z (-1); min := None; max := None |});
    ("void", {| name := "void"; cppType := "void"; size := number_of_Z 0;
                min := None; max := None |}) ].

(** [TYPE_METADATA[typeName]?.cppType || 'auto']: a member inherited from
    [Object.prototype] has no [cppType] property. *)

Definition getCppType (typeName : string) : string :=
  match Get TYPE_METADATA typeName with
  | Own metadata => or_else (cppType metadata) "auto"
  | Inherited _ => "auto"
  | Undefined => "auto"
  end.

Definition isWithinBounds (value : number) (typeName : string)
  : Datatypes.bool :=
  match Get TYPE_METADATA typeName with
  | Own metadata =>
      match min metadata, max metadata with
      | Some lo, Some hi => ge value lo && le value hi
      | _, _ => true
      end
  | Inherited _ => true
  | Undefined => true
  end.

(** ** Vex Function wrapper for function types *)

Record Param : Type := {
  param_name : string;
  param_type : string
}.

Record VexFunction (F : Type) : Type := {
  fn_name : string;
  returnType : string;
  parameters : list Param;
  func : F
}.

Arguments fn_name {F} _.
Arguments returnType {F} _.
Arguments parameters {F} _.
Arguments func {F} _.

Definition getCppSignature {F : Type} (this : VexFunction F) : string :=
  let params :=
    String.concat ", "
      (map (fun p => getCppType (param_type p) ++ " " ++ param_name p)
           (parameters this)) in
  getCppType (returnType this) ++ " " ++ fn_name this
    ++ "(" ++ params ++ ")".

(** ** Type utilities for compile-time checks *)

Definition isIntegerType (typeName : string) : Datatypes.bool :=
  existsb (String.eqb typeName) ["int"; "short"; "long"].

Definition isFloatingType (typeName : string) : Datatypes.bool :=
  existsb (String.eqb typeName) ["float"; "double"].

Definition isNumericType (typeName : string) : Datatypes.bool :=
  isIntegerType typeName || isFloatingType typeName.

Definition isPrimitiveType (typeName : string) : Datatypes.bool :=
  HasProperty TYPE_METADATA typeName.

End Part000.

(* ================================================================== *)
(** * [src/TypeMapper.ts]                                               *)
(* ================================================================== *)

Module TypeMapper.
Import JS.

(** ** The syntax tree the mapper reads

    A node is its kind, its children, and the text the mapper reads from
    it.  For a type node that is [getText()], the source text of the
    node. *)

Inductive TypeNode : Type :=
| ArrayTypeNode (text : string) (elementType : TypeNode)
| TupleTypeNode (text : string) (elements : list TypeNode)
| OtherTypeNode (text : string).

Definition getText (typeNode : TypeNode) : string :=
  match typeNode with
  | ArrayTypeNode text _ => text
  | TupleTypeNode text _ => text
  | OtherTypeNode text => text
  end.

(** The callee of a call is kept as the source text
    [expression.getText()] returns.  The [text] of a literal is its
    [text] property, which is not its source text: for a numeric literal
    it is the text the scanner stored (see [scannedText] below). *)

Inductive Expression : Type :=
| StringLiteral (text : string)
| NumericLiteral (text : string)
| TrueKeyword
| FalseKeyword
| ArrayLiteralExpression (elements : list Expression)
| CallExpression (expression : string) (arguments : list Expression)
| OtherExpression.

(** What the compiler's scanner, which is no part of the repository,
    stores as the [text] of a numeric literal: not the source of the
    literal but ["" + value], the rendering of its value (on the source
    of a decimal literal, [parseFloat] reads that value).  Given for the
    literals whose value is a whole number below [2^53]. *)

Definition scannedText (source : string) : option string :=
  NumberToString_whole (parseFloat source).

Record VariableDeclaration : Type := {
  var_type : option TypeNode;
  initializer : option Expression
}.

Record ParameterDeclaration : Type := {
  param_type : option TypeNode;
  param_initializer : option Expression
}.

Record FunctionDeclaration : Type := {
  fn_type : option TypeNode;
  fn_parameters : list ParameterDeclaration;
  body : list Expression
}.

(** ** What a lookup in a [Record<string, string>] hands back

    The tables are object literals, so [table[key]] is the own string
    when there is one, and otherwise whatever [Object.prototype] holds
    under [key]: a builtin, not a string. *)

Inductive value : Type :=
| Str (s : string)
| Builtin (key : string).

(** [table[key] || 'auto'], which is also what
    [if (table[key]) return table[key]; ... return 'auto'] comes to. *)

Definition lookup_or_auto (table : list (string * string)) (key : string)
  : value :=
  match Get table key with
  | Own s => Str (or_else s "auto")
  | Inherited k => Builtin k
  | Undefined => Str "auto"
  end.

Section Host.

(** The text the host gives for a member of [Object.prototype] when a
    template literal or [join] converts it to a string. *)

Variable nativeText : string -> string.

Definition ToString (v : value) : string :=
  match v with
  | Str s => s
  | Builtin key => nativeText key
  end.

Definition typeMap : list (string * string) :=
  [ ("int", "int32_t"); ("short", "int16_t"); ("long", "int64_t");
    ("float", "float"); ("double", "double"); ("bool", "bool");
    ("boolean", "bool"); ("char", "char"); ("string", "std::string");
    ("number", "double"); ("void", "void"); ("any", "auto") ].

Fixpoint mapTypeNode (typeNode : TypeNode) : value :=
  let typeText := getText typeNode in
  match typeNode with
  | ArrayTypeNode _ elementType =>
      let elementType := mapTypeNode elementType in
      Str ("std::vector<" ++ ToString elementType ++ ">")
  | TupleTypeNode _ elements =>
      let elementTypes := map mapTypeNode elements in
      Str ("std::tuple<" ++ String.concat ", " (map ToString elementTypes)
             ++ ">")
  | OtherTypeNode _ => lookup_or_auto typeMap typeText
  end.

Definition typeConstructors : list (string * string) :=
  [ ("int", "int32_t"); ("short", "int16_t"); ("long", "int64_t");
    ("float", "float"); ("double", "double"); ("bool", "bool");
    ("char", "char"); ("string", "std::string") ].

Definition inferNumericLiteral (text : string) : string :=
  let value := parseFloat text in
  if includes text "." then "double"
  else if Number_isInteger value then
    if ge value (number_of_Z (-32768)) && le value (number_of_Z 32767)
    then "int16_t"
    else if ge value (number_of_Z (-2147483648))
            && le value (number_of_Z 2147483647)
    then "int32_t"
    else "int64_t"
  else "double".

Fixpoint inferFromExpression (expr : Expression) : value :=
  match expr with
  | StringLiteral _ => Str "std::string"
  | NumericLiteral text => Str (inferNumericLiteral text)
  | TrueKeyword | FalseKeyword => Str "bool"
  | ArrayLiteralExpression elements =>
      match elements with
      | first :: _ =>
          let elementType := inferFromExpression first in
          Str ("std::vector<" ++ ToString elementType ++ ">")
      | [] => Str "std::vector<auto>"
      end
  | CallExpression funcName _ =>
      lookup_or_auto typeConstructors funcName
  | OtherExpression => Str "auto"
  end.

Definition getVariableType (declaration : VariableDeclaration) : value :=
  match var_type declaration with
  | Some type => mapTypeNode type
  | None =>
      match initializer declaration with
      | Some init => inferFromExpression init
      | None => Str "auto"
      end
  end.

Definition getFunctionReturnType (func : FunctionDeclaration) : value :=
  match fn_type func with
  | Some type => mapTypeNode type
  | None => Str "auto"
  end.

Definition getParameterType (param : ParameterDeclaration) : value :=
  match param_type param with
  | Some type => mapTypeNode type
  | None => Str "auto"
  end.

End Host.

(** ** The path through the type checker

    A [ts.Type] is read through its [flags] and through the text
    [checker.typeToString] gives for it.  The four masks of
    [ts.TypeFlags] belong to the compiler package, and so does the
    checker: they are taken as given. *)

Record TsType : Type := {
  flags : Z;
  typeString : string
}.

Section Checker.

Variables TypeFlags_String TypeFlags_Number TypeFlags_Boolean
  TypeFlags_Void : Z.

(** [type.flags & mask], as a condition. *)

Definition has_flag (type : TsType) (mask : Z) : bool :=
  negb (Z.land (flags type) mask =? 0).

Definition checkerTypeMap : list (string * string) :=
  [ ("int", "int32_t"); ("short", "int16_t"); ("long", "int64_t");
    ("float", "float"); ("double", "double"); ("bool", "bool");
    ("char", "char") ].

Definition typeToString (type : TsType) : value :=
  if has_flag type TypeFlags_String then Str "std::string"
  else if has_flag type TypeFlags_Number then Str "double"
  else if has_flag type TypeFlags_Boolean then Str "bool"
  else if has_flag type TypeFlags_Void then Str "void"
  else
    let typeString := typeString type in
    lookup_or_auto checkerTypeMap typeString.

Variable Node : Type.
Variable getTypeAtLocation : Node -> TsType.

Definition mapType (node : Node) : value :=
  let type := getTypeAtLocation node in
  typeToString type.

End Checker.

End TypeMapper.

(* ================================================================== *)
(** * Vocabulary of the specification                                   *)
(* ================================================================== *)

Module Notions.
Import JS.

(** [has_value x z]: the Number [x] is the whole number [z]. *)

Definition has_value (x : number) (z : Z) : Prop :=
  match mathematical x with
  | Some a => xcompare a (Dyadic z 0) = Eq
  | None => False
  end.

(** A finite value [m * 2^e] as a multiple of [2^k], an integer as soon
    as [k <= e]. *)

Definition scaled (k : Z) (m e : Z) : Z := m * 2 ^ (e - k).

(** Validity of a binary64 datum: a finite one has its significand below
    [2^53], its exponent within [-1074 .. 971], and is normalised. *)

Definition binary64 (x : number) : Prop := valid_binary 53 1024 x = true.

(** A mathematical value against the decimal [digits * 10^exponent],
    exactly (both sides cleared of their negative powers). *)

Definition compare_decimal (a : xreal) (digits exponent : Z) : comparison :=
  match a with
  | NegInf => Lt
  | PosInf => Gt
  | Dyadic m e =>
      Z.compare (m * 2 ^ Z.max 0 e * 10 ^ Z.max 0 (- exponent))
                (digits * 10 ^ Z.max 0 exponent * 2 ^ Z.max 0 (- e))
  end.

Definition above_decimal (x : number) (digits exponent : Z) : Prop :=
  match mathematical x with
  | Some a => compare_decimal a digits exponent = Gt
  | None => False
  end.

Definition below_decimal (x : number) (digits exponent : Z) : Prop :=
  match mathematical x with
  | Some a => compare_decimal a digits exponent = Lt
  | None => False
  end.

(** A text of decimal digits only, and the integer it spells. *)

Fixpoint all_digits (s : string) : bool :=
  match s with
  | EmptyString => true
  | String c s' => is_digit c && all_digits s'
  end.

Fixpoint decimal_value_from (acc : Z) (s : string) : Z :=
  match s with
  | EmptyString => acc
  | String c s' => decimal_value_from (10 * acc + digit_value c) s'
  end.

Definition decimal_value (s : string) : Z := decimal_value_from 0 s.

(** The quotient [n / d] through the library's IEEE 754 division, to
    check [round_binary64] against. *)

Definition integer_datum (z : Z) : number :=
  match z with
  | Z0 => S754_zero false
  | Zpos p => S754_finite false p 0
  | Zneg p => S754_finite true p 0
  end.

Definition SFdiv_quotient (n d : Z) : number :=
  SFdiv 53 1024 (integer_datum n) (integer_datum d).

(** How a call ended. *)

Definition throws_TypeError {A : Type} (c : completion A) : Prop :=
  exists message, c = Throw (TypeError message).

Definition throws_RangeError {A : Type} (c : completion A) : Prop :=
  exists message, c = Throw (RangeError message).

(** A RangeError whose message opens with [tag]. *)

Definition throws_RangeError_tagged {A : Type} (tag : string)
  (c : completion A) : Prop :=
  exists rest, c = Throw (RangeError (Chars tag :: rest)).

(** The names of the Bounded Value Constructors. *)

Definition BoundedValueConstructors : list string :=
  ["int"; "short"; "long"; "float"; "double"; "bool"; "char"].

(** The keys of the metadata table. *)

Definition PrimitiveTypeNames : list string :=
  ["int"; "short"; "long"; "float"; "double"; "bool"; "char"; "string";
   "void"].

(** An annotation nested in [length texts] array types, outermost text
    first, and a representation wrapped in [n] sequences. *)

Fixpoint array_of (texts : list string) (t : TypeMapper.TypeNode)
  : TypeMapper.TypeNode :=
  match texts with
  | [] => t
  | text :: texts' => TypeMapper.ArrayTypeNode text (array_of texts' t)
  end.

Fixpoint vector_of (n : nat) (s : string) : string :=
  match n with
  | O => s
  | S n' => "std::vector<" ++ vector_of n' s ++ ">"
  end.

(** The signature in the specification's words: every parameter as
    [<type> <name>], the parameters separated by [", "] in declaration
    order, after [<return type> <name>(] and before [)]. *)

Fixpoint render_parameters (target : string -> string)
  (ps : list (string * string)) : string :=
  match ps with
  | [] => ""
  | [(n, t)] => target t ++ " " ++ n
  | (n, t) :: ps' =>
      target t ++ " " ++ n ++ ", " ++ render_parameters target ps'
  end.

Definition renderSignature (target : string -> string)
  (name returnType : string) (ps : list (string * string)) : string :=
  target returnType ++ " " ++ name ++ "(" ++ render_parameters target ps
    ++ ")".

(** The two copies of the type system declare their records separately;
    these read a record of either copy as its fields, and carry a
    descriptor of [src/Types.ts] over to the copy. *)

Definition fields_of_Types (entry : string * Types.TypeMetadata)
  : string * (string * string * number * option number * option number) :=
  let '(key, md) := entry in
  (key, (Types.name md, Types.cppType md, Types.size md,
         Types.min md, Types.max md)).

Definition fields_of_Part000 (entry : string * Part000.TypeMetadata)
  : string * (string * string * number * option number * option number) :=
  let '(key, md) := entry in
  (key, (Part000.name md, Part000.cppType md, Part000.size md,
         Part000.min md, Part000.max md)).

Definition to_Part000 {F : Type} (f : Types.VexFunction F)
  : Part000.VexFunction F :=
  {| Part000.fn_name := Types.fn_name f;
     Part000.returnType := Types.returnType f;
     Part000.parameters :=
       map (fun p => {| Part000.param_name := Types.param_name p;
                        Part000.param_type := Types.param_type p |})
           (Types.parameters f);
     Part000.func := Types.func f |}.

(** An array literal nested [length rests] deep around [e]: at each
    level the literal of the level below comes first, followed by the
    other elements of that level. *)

Fixpoint nested_literal (rests : list (list TypeMapper.Expression))
  (e : TypeMapper.Expression) : TypeMapper.Expression :=
  match rests with
  | [] => e
  | rest :: rests' =>
      TypeMapper.ArrayLiteralExpression (nested_literal rests' e :: rest)
  end.

(** The masks of [ts.TypeFlags] in the compiler releases up to 5.x. *)

Definition TypeFlags_String : Z := 4.
Definition TypeFlags_Number : Z := 8.
Definition TypeFlags_Boolean : Z := 16.
Definition TypeFlags_Void : Z := 16384.

End Notions.

(* ================================================================== *)
(** * Facts about Numbers                                               *)
(* ================================================================== *)

Module NumberFacts.
Import JS Notions.

Lemma pow2_pos (n : Z) : 0 <= n -> 0 < 2 ^ n.
Proof. intros H. apply Z.pow_pos_nonneg; lia. Qed.

Lemma pow2_split (a b : Z) : 0 <= a -> 0 <= b -> 2 ^ (a + b) = 2 ^ a * 2 ^ b.
Proof. intros Ha Hb. apply Z.pow_add_r; assumption. Qed.

Lemma mul_compare_r (a b c : Z) :
  0 < c -> Z.compare (a * c) (b * c) = Z.compare a b.
Proof.
  intros Hc. destruct (Z.compare_spec a b) as [H | H | H].
  - subst. apply Z.compare_refl.
  - apply Z.compare_lt_iff. nia.
  - apply Z.compare_gt_iff. nia.
Qed.

Lemma dyadic_compare_scaled (m1 e1 m2 e2 k : Z) :
  k <= e1 -> k <= e2 ->
  dyadic_compare m1 e1 m2 e2 = Z.compare (scaled k m1 e1) (scaled k m2 e2).
Proof.
  intros H1 H2. unfold dyadic_compare, scaled.
  set (e := Z.min e1 e2).
  assert (He1 : e <= e1) by (subst e; lia).
  assert (He2 : e <= e2) by (subst e; lia).
  assert (Hk : k <= e) by (subst e; lia).
  replace (e1 - k) with ((e1 - e) + (e - k)) by lia.
  replace (e2 - k) with ((e2 - e) + (e - k)) by lia.
  rewrite !pow2_split by lia.
  rewrite !Z.mul_assoc.
  symmetry. apply mul_compare_r. apply pow2_pos. lia.
Qed.

Lemma has_value_scaled (x : number) (z : Z) (k : Z) :
  has_value x z ->
  exists m e, mathematical x = Some (Dyadic m e)
              /\ (k <= e -> k <= 0 -> scaled k m e = scaled k z 0).
Proof.
  unfold has_value. destruct (mathematical x) as [[ | m e | ] | ];
    simpl; try discriminate; try contradiction.
  intros H. exists m, e. split; [reflexivity | ].
  intros He Hk. rewrite (dyadic_compare_scaled m e z 0 k) in H by assumption.
  apply Z.compare_eq in H. exact H.
Qed.

(** Two whole Numbers compare as their integers do. *)

Lemma compare_has_value (x y : number) (z w : Z) :
  has_value x z -> has_value y w -> compare x y = Some (Z.compare z w).
Proof.
  intros Hx Hy.
  destruct (has_value_scaled x z 0 Hx) as (m1 & e1 & E1 & _).
  destruct (has_value_scaled y w 0 Hy) as (m2 & e2 & E2 & _).
  set (k := Z.min 0 (Z.min e1 e2)).
  destruct (has_value_scaled x z k Hx) as (m1' & e1' & E1' & S1).
  destruct (has_value_scaled y w k Hy) as (m2' & e2' & E2' & S2).
  rewrite E1 in E1'. injection E1' as <- <-.
  rewrite E2 in E2'. injection E2' as <- <-.
  unfold compare. rewrite E1, E2. simpl. f_equal.
  rewrite (dyadic_compare_scaled m1 e1 m2 e2 k) by (subst k; lia).
  rewrite S1, S2 by (subst k; lia).
  unfold scaled. apply mul_compare_r. apply pow2_pos. subst k; lia.
Qed.

(** [Number.isInteger] holds exactly of the whole Numbers. *)

Lemma isInteger_has_value (x : number) :
  Number_isInteger x = true <-> exists z, has_value x z.
Proof.
  unfold has_value. split.
  - destruct x as [s | s | | s m e]; simpl; try discriminate.
    + intros _. exists 0. reflexivity.
    + set (sm := if s then Z.neg m else Z.pos m).
      destruct (Z.leb_spec 0 e) as [He | He].
      * intros _. exists (sm * 2 ^ e).
        rewrite (dyadic_compare_scaled _ _ _ _ 0) by lia.
        unfold scaled. rewrite !Z.sub_0_r, Z.pow_0_r, Z.mul_1_r.
        apply Z.compare_refl.
      * intros H. apply Z.eqb_eq in H.
        assert (Hp : 0 < 2 ^ (- e)) by (apply pow2_pos; lia).
        apply Z.mod_divide in H; [ | lia]. destruct H as [q Hq].
        exists (if s then - q else q).
        rewrite (dyadic_compare_scaled _ _ _ _ e) by lia.
        unfold scaled. rewrite Z.sub_diag. change (0 - e) with (- e).
        rewrite Z.pow_0_r, Z.mul_1_r. apply Z.compare_eq_iff.
        subst sm. destruct s; lia.
  - intros [z H]. destruct x as [s | s | | s m e]; simpl in *;
      try reflexivity; try contradiction; try (destruct s; discriminate).
    destruct (Z.leb_spec 0 e) as [He | He]; [reflexivity | ].
    rewrite (dyadic_compare_scaled _ _ _ _ e) in H by lia.
    apply Z.compare_eq in H. unfold scaled in H.
    rewrite Z.sub_diag in H. change (0 - e) with (- e) in H.
    rewrite Z.pow_0_r, Z.mul_1_r in H.
    apply Z.eqb_eq.
    assert (Hp : 0 < 2 ^ (- e)) by (apply pow2_pos; lia).
    destruct s.
    + apply Z.mod_divide; [lia | ]. exists (- z). lia.
    + apply Z.mod_divide; [lia | ]. exists z. lia.
Qed.

Lemma has_value_finite_nonneg (p : positive) (e : Z) :
  0 <= e -> has_value (S754_finite false p e) (Z.pos p * 2 ^ e).
Proof.
  intros He. unfold has_value. cbn [mathematical xcompare].
  rewrite (dyadic_compare_scaled _ _ _ _ 0) by lia.
  unfold scaled. rewrite !Z.sub_0_r, Z.pow_0_r, Z.mul_1_r.
  apply Z.compare_refl.
Qed.

Lemma has_value_unique (x : number) (z w : Z) :
  has_value x z -> has_value x w -> z = w.
Proof.
  intros Hz Hw. pose proof (compare_has_value x x z w Hz Hw) as H.
  pose proof (compare_has_value x x z z Hz Hz) as H'.
  rewrite H' in H. rewrite Z.compare_refl in H.
  injection H as H. symmetry in H. apply Z.compare_eq in H. exact H.
Qed.


(** ** Rounding an integer *)

Lemma log2_ratio_one (N : Z) : 0 < N -> floor_log2_ratio N 1 = Z.log2 N.
Proof.
  intros HN. unfold floor_log2_ratio, floor_quot_pow2.
  change (Z.log2 1) with 0. rewrite Z.sub_0_r.
  pose proof (Z.log2_nonneg N) as Hk.
  destruct (Z.log2_spec N HN) as [Hlo Hhi].
  rewrite (Z.max_l 0 (- Z.log2 N)) by lia.
  rewrite (Z.max_r 0 (Z.log2 N)) by lia.
  rewrite Z.pow_0_r, Z.mul_1_r, Z.mul_1_l.
  assert (Hq : 1 <= N / 2 ^ Z.log2 N).
  { apply Z.div_le_lower_bound; [apply pow2_pos; lia | lia]. }
  destruct (Z.leb_spec 1 (N / 2 ^ Z.log2 N)); [reflexivity | lia].
Qed.

Lemma round_binary64_exact (neg : bool) (N : Z) :
  0 < N < 2 ^ 53 ->
  exists p, round_binary64 neg N 1 = S754_finite neg p (Z.log2 N - 52)
            /\ Z.pos p = N * 2 ^ (52 - Z.log2 N).
Proof.
  intros [HN Hlt]. unfold round_binary64.
  destruct (Z.leb_spec N 0) as [H0 | _]; [lia | ].
  rewrite (log2_ratio_one N HN).
  pose proof (Z.log2_nonneg N) as Hk.
  assert (Hk52 : Z.log2 N < 53) by (apply Z.log2_lt_pow2; lia).
  destruct (Z.log2_spec N HN) as [Hlo Hhi].
  rewrite (Z.max_l (Z.log2 N - 52) (-1074)) by lia.
  rewrite (Z.max_r 0 (- (Z.log2 N - 52))) by lia.
  rewrite (Z.max_l 0 (Z.log2 N - 52)) by lia.
  rewrite Z.pow_0_r, Z.mul_1_l, Z.div_1_r, Z.mod_1_r.
  change (Z.compare (2 * 0) 1) with Lt. cbv iota.
  replace (- (Z.log2 N - 52)) with (52 - Z.log2 N) by lia.
  set (m := N * 2 ^ (52 - Z.log2 N)).
  assert (Hp : 0 < 2 ^ (52 - Z.log2 N)) by (apply pow2_pos; lia).
  assert (Hm : 0 < m) by (subst m; nia).
  assert (Hm53 : m < 2 ^ 53).
  { subst m. replace (2 ^ 53) with (2 ^ Z.succ (Z.log2 N) * 2 ^ (52 - Z.log2 N)).
    - nia.
    - rewrite <- pow2_split by lia. f_equal. lia. }
  destruct (Z.eqb_spec m (2 ^ 53)) as [E | _]; [lia | ].
  destruct (Z.ltb_spec 971 (Z.log2 N - 52)) as [E | _]; [lia | ].
  destruct m as [ | p | p] eqn:Em; try lia.
  exists p. split; reflexivity.
Qed.

Lemma round_binary64_large (neg : bool) (N : Z) :
  2 ^ 53 <= N ->
  (round_binary64 neg N 1 = S754_infinity neg /\ 2 ^ 1023 <= N)
  \/ exists p e, round_binary64 neg N 1 = S754_finite neg p e
                 /\ 1 <= e /\ 2 ^ 52 <= Z.pos p.
Proof.
  intros Hge.
  assert (HN : 0 < N) by (pose proof (pow2_pos 53); lia).
  unfold round_binary64.
  destruct (Z.leb_spec N 0) as [H0 | _]; [lia | ].
  rewrite (log2_ratio_one N HN).
  assert (Hk : 53 <= Z.log2 N) by (apply Z.log2_le_pow2; lia).
  destruct (Z.log2_spec N HN) as [Hlo Hhi].
  set (e := Z.log2 N - 52) in *.
  rewrite (Z.max_l e (-1074)) by lia.
  rewrite (Z.max_l 0 (- e)) by lia.
  rewrite (Z.max_r 0 e) by lia.
  rewrite Z.pow_0_r, Z.mul_1_l, Z.mul_1_r.
  assert (He : 0 < 2 ^ e) by (apply pow2_pos; lia).
  assert (Hsplit : 2 ^ Z.log2 N = 2 ^ 52 * 2 ^ e).
  { rewrite <- pow2_split by lia. f_equal. lia. }
  assert (Hsplit' : 2 ^ Z.succ (Z.log2 N) = 2 ^ 53 * 2 ^ e).
  { rewrite <- pow2_split by lia. f_equal. lia. }
  set (q := N / 2 ^ e).
  assert (Hq : 2 ^ 52 <= q < 2 ^ 53).
  { subst q. split.
    - apply Z.div_le_lower_bound; lia.
    - apply Z.div_lt_upper_bound; lia. }
  set (m := match Z.compare (2 * (N mod 2 ^ e)) (2 ^ e) with
            | Eq => if Z.even q then q else q + 1
            | Lt => q
            | Gt => q + 1
            end).
  assert (Hm : q <= m <= q + 1).
  { subst m. destruct (Z.compare (2 * (N mod 2 ^ e)) (2 ^ e));
      try destruct (Z.even q); lia. }
  clearbody m.
  destruct (Z.eqb_spec m (2 ^ 53)) as [E | E].
  - destruct (Z.ltb_spec 971 (e + 1)) as [Hinf | Hfin].
    + left. split; [reflexivity | ].
      apply Z.le_trans with (2 ^ Z.log2 N); [ | exact Hlo].
      apply Z.pow_le_mono_r; lia.
    + right. exists (Z.to_pos (2 ^ 52)), (e + 1).
      split; [reflexivity | ]. split; [lia | reflexivity].
  - destruct (Z.ltb_spec 971 e) as [Hinf | Hfin].
    + left. split; [reflexivity | ].
      apply Z.le_trans with (2 ^ Z.log2 N); [ | exact Hlo].
      apply Z.pow_le_mono_r; lia.
    + right. destruct m as [ | p | p]; try lia.
      exists p, e. split; [reflexivity | ]. split; lia.
Qed.

(** [round_binary64] and the library's division agree on sample
    quotients: exact ones, ties, subnormals, the overflow threshold. *)

Lemma round_binary64_samples :
  forallb (fun '(n, d) => SFeqb (round_binary64 false n d) (SFdiv_quotient n d))
    [ (1, 10); (1, 3); (2, 3); (34028235 * 10 ^ 31, 1); (1175494, 10 ^ 44);
      (1, 10 ^ 40); (5, 10 ^ 324); (2, 10 ^ 324); (3, 10 ^ 324);
      (9007199254740993, 1); (9007199254740995, 1);
      (22250738585072011, 10 ^ 324); (1, 2 ^ 1075); (3, 2 ^ 1075);
      (2 ^ 1024 - 2 ^ 970, 1); (2 ^ 1024 - 2 ^ 970 - 1, 1) ]
  = true.
Proof. vm_compute. reflexivity. Qed.

(** ** Valid binary64 data *)

Lemma digits2_pos_bounds (p : positive) :
  2 ^ (Z.pos (digits2_pos p) - 1) <= Z.pos p < 2 ^ Z.pos (digits2_pos p).
Proof.
  induction p as [p IH | p IH | ]; cbn [digits2_pos].
  - rewrite Pos2Z.inj_succ.
    replace (Z.succ (Z.pos (digits2_pos p)) - 1)
      with (Z.succ (Z.pos (digits2_pos p) - 1)) by lia.
    rewrite !Z.pow_succ_r by lia. lia.
  - rewrite Pos2Z.inj_succ.
    replace (Z.succ (Z.pos (digits2_pos p)) - 1)
      with (Z.succ (Z.pos (digits2_pos p) - 1)) by lia.
    rewrite !Z.pow_succ_r by lia. lia.
  - simpl. lia.
Qed.

(** What validity says of a finite Number. *)

Lemma binary64_finite (s : bool) (m : positive) (e : Z) :
  binary64 (S754_finite s m e) ->
  -1074 <= e <= 971 /\ Z.pos m < 2 ^ 53 /\ (-1074 < e -> 2 ^ 52 <= Z.pos m).
Proof.
  unfold binary64, valid_binary, bounded, canonical_mantissa, fexp, emin.
  intros H. apply andb_true_iff in H. destruct H as [Hc Hb].
  apply Z.eqb_eq in Hc. apply Z.leb_le in Hb.
  pose proof (digits2_pos_bounds m) as [Hlo Hhi].
  set (d := Z.pos (digits2_pos m)) in *.
  assert (Hd : d <= 53) by lia.
  split; [lia | split].
  - apply Z.lt_le_trans with (2 ^ d); [exact Hhi | ].
    apply Z.pow_le_mono_r; lia.
  - intros He. assert (d = 53) by lia. subst d. rewrite H in Hlo. exact Hlo.
Qed.

(** Finite binary64 values are discrete: above [m0 * 2^e0] the next one is
    [(m0 + 1) * 2^e0], and below it the previous one is [(m0 - 1) * 2^e0]
    as long as that stays in the same binade. *)

Lemma pow2_gap (a b : Z) : a < b -> 0 <= a -> 2 * 2 ^ a <= 2 ^ b.
Proof.
  intros H Ha. rewrite <- Z.pow_succ_r by lia.
  apply Z.pow_le_mono_r; lia.
Qed.

Lemma binary64_next (m e m0 e0 : Z) :
  -1074 <= e -> 0 < m < 2 ^ 53 -> (-1074 < e -> 2 ^ 52 <= m) ->
  -1074 <= e0 -> 0 < m0 < 2 ^ 53 -> (-1074 < e0 -> 2 ^ 52 <= m0) ->
  scaled (-1074) m0 e0 < scaled (-1074) m e ->
  scaled (-1074) (m0 + 1) e0 <= scaled (-1074) m e.
Proof.
  unfold scaled. change (2 ^ 53) with (2 * 2 ^ 52).
  generalize (2 ^ 52). intros h He Hm Hn He0 Hm0 Hn0 Hlt.
  set (A := 2 ^ (e - -1074)) in *. set (A0 := 2 ^ (e0 - -1074)) in *.
  assert (P : 0 < A) by (apply pow2_pos; lia).
  assert (P0 : 0 < A0) by (apply pow2_pos; lia).
  destruct (Z.lt_trichotomy e e0) as [L | [E | G]].
  - exfalso. specialize (Hn0 ltac:(lia)).
    assert (T : 2 * A <= A0) by (apply pow2_gap; lia).
    assert (m * A < 2 * h * A) by nia.
    assert (h * (2 * A) <= m0 * A0) by (apply Z.mul_le_mono_nonneg; lia).
    lia.
  - assert (EA : A0 = A) by (subst A A0 e0; reflexivity).
    rewrite EA in *.
    assert (m0 < m) by (apply Z.mul_lt_mono_pos_r with A; assumption).
    apply Z.mul_le_mono_nonneg_r; lia.
  - specialize (Hn ltac:(lia)).
    assert (T : 2 * A0 <= A) by (apply pow2_gap; lia).
    assert ((m0 + 1) * A0 <= 2 * h * A0) by nia.
    assert (h * (2 * A0) <= m * A) by (apply Z.mul_le_mono_nonneg; lia).
    lia.
Qed.

Lemma binary64_previous (m e m0 e0 : Z) :
  -1074 <= e -> 0 < m < 2 ^ 53 -> (-1074 < e -> 2 ^ 52 <= m) ->
  -1074 <= e0 -> 2 ^ 52 < m0 < 2 ^ 53 ->
  scaled (-1074) m e < scaled (-1074) m0 e0 ->
  scaled (-1074) m e <= scaled (-1074) (m0 - 1) e0.
Proof.
  unfold scaled. change (2 ^ 53) with (2 * 2 ^ 52).
  generalize (2 ^ 52). intros h He Hm Hn He0 Hm0 Hlt.
  set (A := 2 ^ (e - -1074)) in *. set (A0 := 2 ^ (e0 - -1074)) in *.
  assert (P : 0 < A) by (apply pow2_pos; lia).
  assert (P0 : 0 < A0) by (apply pow2_pos; lia).
  destruct (Z.lt_trichotomy e e0) as [L | [E | G]].
  - assert (T : 2 * A <= A0) by (apply pow2_gap; lia).
    assert (m * A <= 2 * h * A) by nia.
    assert (h * (2 * A) <= (m0 - 1) * A0)
      by (apply Z.mul_le_mono_nonneg; lia).
    lia.
  - assert (EA : A0 = A) by (subst A A0 e0; reflexivity).
    rewrite EA in *.
    assert (m < m0) by (apply Z.mul_lt_mono_pos_r with A; assumption).
    apply Z.mul_le_mono_nonneg_r; lia.
  - exfalso. specialize (Hn ltac:(lia)).
    assert (T : 2 * A0 <= A) by (apply pow2_gap; lia).
    assert (m0 * A0 < 2 * h * A0) by nia.
    assert (h * (2 * A0) <= m * A) by (apply Z.mul_le_mono_nonneg; lia).
    lia.
Qed.

Lemma compare_decimal_scaled (m e digits exponent : Z) :
  -1074 <= e ->
  compare_decimal (Dyadic m e) digits exponent
  = Z.compare (scaled (-1074) m e * 10 ^ Z.max 0 (- exponent))
              (digits * 10 ^ Z.max 0 exponent * 2 ^ 1074).
Proof.
  intros He. unfold compare_decimal, scaled.
  destruct (Z.le_gt_cases 0 e) as [Hpos | Hneg].
  - rewrite (Z.max_r 0 e), (Z.max_l 0 (- e)) by lia.
    rewrite Z.pow_0_r, Z.mul_1_r.
    replace (e - -1074) with (e + 1074) by lia.
    rewrite (pow2_split e 1074) by lia.
    rewrite <- (mul_compare_r _ _ (2 ^ 1074)) by (apply pow2_pos; lia).
    f_equal; ring.
  - rewrite (Z.max_l 0 e), (Z.max_r 0 (- e)) by lia.
    rewrite Z.pow_0_r, Z.mul_1_r.
    replace (2 ^ 1074) with (2 ^ (- e) * 2 ^ (e - -1074))
      by (rewrite <- pow2_split by lia; f_equal; lia).
    rewrite <- (mul_compare_r _ _ (2 ^ (e - -1074)))
      by (apply pow2_pos; lia).
    f_equal; ring.
Qed.

Lemma lt_finite (m1 : positive) (e1 : Z) (m2 : positive) (e2 : Z) :
  -1074 <= e1 -> -1074 <= e2 ->
  lt (S754_finite false m1 e1) (S754_finite false m2 e2) = true
  <-> scaled (-1074) (Z.pos m1) e1 < scaled (-1074) (Z.pos m2) e2.
Proof.
  intros H1 H2. unfold lt, compare. cbn [mathematical xcompare].
  rewrite (dyadic_compare_scaled _ _ _ _ (-1074)) by assumption.
  rewrite <- Z.compare_lt_iff.
  destruct (Z.compare _ _); split; intros H; try reflexivity; discriminate.
Qed.

End NumberFacts.

(* ================================================================== *)
(** * [parseFloat] on a text of digits                                  *)
(* ================================================================== *)

Module ParseFacts.
Import JS Notions NumberFacts.

Ltac by_ascii c :=
  destruct c as [[] [] [] [] [] [] [] []]; try discriminate; reflexivity.

Lemma digit_not_white_space (c : ascii) :
  is_digit c = true -> is_white_space c = false.
Proof. by_ascii c. Qed.

Lemma digit_read_sign (c : ascii) (s : string) :
  is_digit c = true -> read_sign (String c s) = (false, String c s).
Proof. by_ascii c. Qed.

Lemma digit_not_Infinity (c : ascii) (s : string) :
  is_digit c = true -> prefix "Infinity" (String c s) = false.
Proof. by_ascii c. Qed.

Lemma digit_not_dot (c : ascii) (s : string) :
  is_digit c = true -> prefix "." (String c s) = false.
Proof. by_ascii c. Qed.

Lemma digit_value_range (c : ascii) :
  is_digit c = true -> 0 <= digit_value c <= 9.
Proof.
  destruct c as [[] [] [] [] [] [] [] []]; try discriminate;
    intros _; vm_compute; split; discriminate.
Qed.

Lemma DecimalDigits_all_digits (s : string) (value count : Z) :
  all_digits s = true ->
  DecimalDigits s value count
  = (decimal_value_from value s, count + Z.of_nat (String.length s), "").
Proof.
  revert value count. induction s as [ | c s IH]; intros value count H.
  - simpl. rewrite Z.add_0_r. reflexivity.
  - simpl in H. apply andb_true_iff in H. destruct H as [Hc Hs].
    cbn [DecimalDigits]. rewrite Hc. rewrite (IH _ _ Hs).
    cbn [decimal_value_from String.length]. f_equal. f_equal. lia.
Qed.

Lemma includes_all_digits (s : string) :
  all_digits s = true -> includes s "." = false.
Proof.
  induction s as [ | c s IH]; intros H; [reflexivity | ].
  simpl in H. apply andb_true_iff in H. destruct H as [Hc Hs].
  cbn [includes]. rewrite (digit_not_dot c s Hc), (IH Hs). reflexivity.
Qed.

Lemma parseFloat_all_digits (s : string) :
  s <> "" -> all_digits s = true ->
  parseFloat s = round_binary64 false (decimal_value s) 1.
Proof.
  intros Hne H. destruct s as [ | c s]; [contradiction | ].
  pose proof H as H'. simpl in H'. apply andb_true_iff in H'.
  destruct H' as [Hc Hs].
  unfold parseFloat. cbn [trimStart].
  rewrite (digit_not_white_space c Hc), (digit_read_sign c s Hc).
  rewrite (digit_not_Infinity c s Hc).
  rewrite (DecimalDigits_all_digits _ 0 0 H).
  destruct (Z.eqb_spec (0 + Z.of_nat (String.length (String c s)) + 0) 0)
    as [E | _]; [simpl in E; lia | ].
  cbn [ExponentPart]. unfold number_of_decimal.
  rewrite Z.sub_0_l. cbn [Z.opp Z.leb Z.compare].
  rewrite Z.pow_0_r, Z.mul_1_r. reflexivity.
Qed.

Lemma decimal_value_from_nonneg (s : string) (acc : Z) :
  all_digits s = true -> 0 <= acc -> 0 <= decimal_value_from acc s.
Proof.
  revert acc. induction s as [ | c s IH]; intros acc H Hacc; [exact Hacc | ].
  simpl in H. apply andb_true_iff in H. destruct H as [Hc Hs].
  cbn [decimal_value_from]. apply IH; [exact Hs | ].
  pose proof (digit_value_range c Hc). lia.
Qed.

End ParseFacts.

(* ================================================================== *)
(** * Properties of the constructors                                    *)
(* ================================================================== *)

Module ConstructorFacts.
Import JS Notions NumberFacts.

Lemma lt_has_value (x y : number) (z w : Z) :
  has_value x z -> has_value y w -> lt x y = (z <? w).
Proof.
  intros Hx Hy. unfold lt. rewrite (compare_has_value x y z w Hx Hy).
  unfold Z.ltb. destruct (z ?= w); reflexivity.
Qed.

Lemma gt_has_value (x y : number) (z w : Z) :
  has_value x z -> has_value y w -> gt x y = (w <? z).
Proof. intros Hx Hy. unfold gt. apply lt_has_value; assumption. Qed.

Lemma le_has_value (x y : number) (z w : Z) :
  has_value x z -> has_value y w -> le x y = (z <=? w).
Proof.
  intros Hx Hy. unfold le. rewrite (compare_has_value x y z w Hx Hy).
  unfold Z.leb. destruct (z ?= w); reflexivity.
Qed.

Lemma ge_has_value (x y : number) (z w : Z) :
  has_value x z -> has_value y w -> ge x y = (w <=? z).
Proof. intros Hx Hy. unfold ge. apply le_has_value; assumption. Qed.

(** The integer constants of the sources are the integers they spell. *)

Lemma has_value_m32768 : has_value (number_of_Z (-32768)) (-32768).
Proof. vm_compute. reflexivity. Qed.

Lemma has_value_32767 : has_value (number_of_Z 32767) 32767.
Proof. vm_compute. reflexivity. Qed.

Lemma has_value_m2147483648 :
  has_value (number_of_Z (-2147483648)) (-2147483648).
Proof. vm_compute. reflexivity. Qed.

Lemma has_value_2147483647 : has_value (number_of_Z 2147483647) 2147483647.
Proof. vm_compute. reflexivity. Qed.

(** [short] and [int] on a whole Number, and on any other Number. *)

Lemma short_whole (v : number) (z : Z) :
  has_value v z ->
  Types.short v =
    if (z <? -32768) || (32767 <? z)
    then Throw (RangeError [Chars "short overflow: "; Subst v;
                            Chars " is out of range [-32768, 32767]"])
    else Return v.
Proof.
  intros H. unfold Types.short.
  assert (Hi : Number_isInteger v = true)
    by (apply isInteger_has_value; exists z; exact H).
  rewrite Hi. cbn [negb].
  rewrite (lt_has_value _ _ _ _ H has_value_m32768).
  rewrite (gt_has_value _ _ _ _ H has_value_32767).
  reflexivity.
Qed.

Lemma int_whole (v : number) (z : Z) :
  has_value v z ->
  Types.int v =
    if (z <? -2147483648) || (2147483647 <? z)
    then Throw (RangeError
                  [Chars "int overflow: "; Subst v;
                   Chars " is out of range [-2147483648, 2147483647]"])
    else Return v.
Proof.
  intros H. unfold Types.int.
  assert (Hi : Number_isInteger v = true)
    by (apply isInteger_has_value; exists z; exact H).
  rewrite Hi. cbn [negb].
  rewrite (lt_has_value _ _ _ _ H has_value_m2147483648).
  rewrite (gt_has_value _ _ _ _ H has_value_2147483647).
  reflexivity.
Qed.

Lemma short_TypeError (v : number) :
  throws_TypeError (Types.short v) <-> Number_isInteger v = false.
Proof.
  unfold throws_TypeError, Types.short.
  destruct (Number_isInteger v); cbn [negb]; split.
  - intros [message H].
    destruct (lt v _ || gt v _); discriminate.
  - discriminate.
  - reflexivity.
  - intros _. eexists. reflexivity.
Qed.

Lemma int_TypeError (v : number) :
  throws_TypeError (Types.int v) <-> Number_isInteger v = false.
Proof.
  unfold throws_TypeError, Types.int.
  destruct (Number_isInteger v); cbn [negb]; split.
  - intros [message H].
    destruct (lt v _ || gt v _); discriminate.
  - discriminate.
  - reflexivity.
  - intros _. eexists. reflexivity.
Qed.

Lemma not_whole_iff (v : number) :
  Number_isInteger v = false <-> ~ exists z, has_value v z.
Proof.
  rewrite <- isInteger_has_value.
  destruct (Number_isInteger v); split; intros H;
    try reflexivity; try discriminate; try (intros H'; discriminate).
  exfalso. apply H. reflexivity.
Qed.

(** C6. For every Number [v]: [short v] throws a TypeError exactly when
    [v] is not a whole number; when [v] is the whole number [z] it throws
    a RangeError exactly when [z < -32768] or [z > 32767], and otherwise
    returns [v] itself.  [short(32768)] and [short(-32769)] throw a
    RangeError.  [int] obeys the same contract with the bounds
    [-2147483648] and [2147483647]; in particular it throws a TypeError on
    every [v] that is not a whole number. *)

Theorem C6_short_int_contract (v : number) :
  (throws_TypeError (Types.short v) <-> ~ exists z, has_value v z)
  /\ (forall z, has_value v z ->
        (throws_RangeError (Types.short v) <-> z < -32768 \/ z > 32767)
        /\ (-32768 <= z <= 32767 -> Types.short v = Return v))
  /\ throws_RangeError (Types.short (number_of_Z 32768))
  /\ throws_RangeError (Types.short (number_of_Z (-32769)))
  /\ (throws_TypeError (Types.int v) <-> ~ exists z, has_value v z)
  /\ (forall z, has_value v z ->
        (throws_RangeError (Types.int v)
           <-> z < -2147483648 \/ z > 2147483647)
        /\ (-2147483648 <= z <= 2147483647 -> Types.int v = Return v)).
Proof.
  split; [ | split; [ | split; [ | split; [ | split]]]].
  - rewrite short_TypeError. apply not_whole_iff.
  - intros z H. rewrite (short_whole v z H). unfold throws_RangeError.
    destruct (Z.ltb_spec z (-32768)); destruct (Z.ltb_spec 32767 z);
      cbn [orb]; (split; [split | ]);
      try (intros; lia);
      try (intros _; eexists; reflexivity);
      try (intros [message Hm]; discriminate);
      try reflexivity.
  - eexists. vm_compute. reflexivity.
  - eexists. vm_compute. reflexivity.
  - rewrite int_TypeError. apply not_whole_iff.
  - intros z H. rewrite (int_whole v z H). unfold throws_RangeError.
    destruct (Z.ltb_spec z (-2147483648));
      destruct (Z.ltb_spec 2147483647 z);
      cbn [orb]; (split; [split | ]);
      try (intros; lia);
      try (intros _; eexists; reflexivity);
      try (intros [message Hm]; discriminate);
      try reflexivity.
Qed.

Lemma C6_short_int_contract_witness :
  has_value (number_of_Z 40000) 40000
  /\ throws_RangeError (Types.short (number_of_Z 40000))
  /\ Types.int (number_of_Z 40000) = Return (number_of_Z 40000).
Proof.
  assert (Hv : has_value (number_of_Z 40000) 40000)
    by (vm_compute; reflexivity).
  destruct (C6_short_int_contract (number_of_Z 40000))
    as (_ & Hshort & _ & _ & _ & Hint).
  split; [exact Hv | split].
  - apply (proj1 (Hshort 40000 Hv)). right. lia.
  - apply (proj2 (Hint 40000 Hv)). lia.
Defined.

End ConstructorFacts.

Module FloatFacts.
Import JS Notions NumberFacts ConstructorFacts.

(** The order on mathematical values is transitive. *)

Lemma xcompare_lt_trans (a b c : xreal) :
  xcompare a b = Lt -> xcompare b c = Lt -> xcompare a c = Lt.
Proof.
  destruct a as [ | m1 e1 | ], b as [ | m2 e2 | ], c as [ | m3 e3 | ];
    simpl; try discriminate; try reflexivity.
  set (k := Z.min e1 (Z.min e2 e3)).
  rewrite (dyadic_compare_scaled m1 e1 m2 e2 k) by (subst k; lia).
  rewrite (dyadic_compare_scaled m2 e2 m3 e3 k) by (subst k; lia).
  rewrite (dyadic_compare_scaled m1 e1 m3 e3 k) by (subst k; lia).
  rewrite !Z.compare_lt_iff. lia.
Qed.

Lemma lt_trans (x y z : number) :
  lt x y = true -> lt y z = true -> lt x z = true.
Proof.
  unfold lt, compare.
  destruct (mathematical x) as [a | ]; [ | discriminate].
  destruct (mathematical y) as [b | ]; [ | discriminate].
  destruct (mathematical z) as [c | ]; [ | discriminate].
  destruct (xcompare a b) eqn:Hab; try discriminate.
  destruct (xcompare b c) eqn:Hbc; try discriminate.
  rewrite (xcompare_lt_trans a b c Hab Hbc). reflexivity.
Qed.

(** The two literals of [float], the second far below the first. *)

Lemma float_max_literal :
  Types.float_max = S754_finite false 9007198806847480 75.
Proof. vm_compute. reflexivity. Qed.

Lemma float_min_literal :
  Types.float_min = S754_finite false 9007196566573036 (-179).
Proof. vm_compute. reflexivity. Qed.

Lemma float_min_below_max : lt Types.float_max Types.float_min = false.
Proof. vm_compute. reflexivity. Qed.

Lemma below_min_not_above_max (a : number) :
  lt a Types.float_min = true -> gt a Types.float_max = false.
Proof.
  intros H. unfold gt. destruct (lt Types.float_max a) eqn:Hm; [ | reflexivity].
  pose proof (lt_trans _ _ _ Hm H) as Ht.
  rewrite float_min_below_max in Ht. discriminate.
Qed.

(** On binary64 data the two literals of [float] cut where the decimals
    they are written as cut. *)

Lemma above_float_max (v : number) :
  binary64 v ->
  gt (Math_abs v) Types.float_max = true
  <-> above_decimal (Math_abs v) 34028235 31.
Proof.
  intros Hv. rewrite float_max_literal. unfold gt.
  destruct v as [s | s | | s m e]; cbn [Math_abs].
  - split; intros H; vm_compute in H; discriminate.
  - split; intros _; reflexivity.
  - split; intros H; [discriminate | contradiction].
  - destruct (binary64_finite s m e Hv) as (He & Hm & Hn).
    rewrite lt_finite by lia.
    unfold above_decimal. cbn [mathematical].
    rewrite compare_decimal_scaled by lia.
    rewrite Z.compare_gt_iff.
    change (10 ^ Z.max 0 (- 31)) with 1. rewrite Z.mul_1_r.
    assert (Hlo : scaled (-1074) 9007198806847480 75
                  <= 34028235 * 10 ^ Z.max 0 31 * 2 ^ 1074)
      by (vm_compute; discriminate).
    assert (Hhi : 34028235 * 10 ^ Z.max 0 31 * 2 ^ 1074
                  < scaled (-1074) (9007198806847480 + 1) 75)
      by (vm_compute; reflexivity).
    pose proof (binary64_next (Z.pos m) e 9007198806847480 75
                  ltac:(lia) ltac:(lia) Hn ltac:(lia)
                  ltac:(split; vm_compute; reflexivity)
                  ltac:(intros _; vm_compute; discriminate)) as Hnext.
    set (V := scaled (-1074) (Z.pos m) e) in *.
    set (D := scaled (-1074) 9007198806847480 75) in *.
    set (D' := scaled (-1074) (9007198806847480 + 1) 75) in *.
    set (C := 34028235 * 10 ^ Z.max 0 31 * 2 ^ 1074) in *.
    clearbody V D D' C. lia.
Qed.

Lemma below_float_min (v : number) :
  binary64 v ->
  lt (Math_abs v) Types.float_min = true
  <-> below_decimal (Math_abs v) 1175494 (-44).
Proof.
  intros Hv. rewrite float_min_literal.
  destruct v as [s | s | | s m e]; cbn [Math_abs].
  - split; intros _; reflexivity.
  - split; intros H; vm_compute in H; discriminate.
  - split; intros H; [discriminate | contradiction].
  - destruct (binary64_finite s m e Hv) as (He & Hm & Hn).
    rewrite lt_finite by lia.
    unfold below_decimal. cbn [mathematical].
    rewrite compare_decimal_scaled by lia.
    rewrite Z.compare_lt_iff.
    change (10 ^ Z.max 0 (- -44)) with (10 ^ 44).
    assert (Hlo : scaled (-1074) (9007196566573036 - 1) (-179) * 10 ^ 44
                  < 1175494 * 10 ^ Z.max 0 (-44) * 2 ^ 1074)
      by (vm_compute; reflexivity).
    assert (Hhi : 1175494 * 10 ^ Z.max 0 (-44) * 2 ^ 1074
                  <= scaled (-1074) 9007196566573036 (-179) * 10 ^ 44)
      by (vm_compute; discriminate).
    pose proof (binary64_previous (Z.pos m) e 9007196566573036 (-179)
                  ltac:(lia) ltac:(lia) Hn ltac:(lia)
                  ltac:(split; vm_compute; reflexivity)) as Hprev.
    assert (Hten : 0 < 10 ^ 44) by (vm_compute; reflexivity).
    set (V := scaled (-1074) (Z.pos m) e) in *.
    set (D := scaled (-1074) 9007196566573036 (-179)) in *.
    set (D' := scaled (-1074) (9007196566573036 - 1) (-179)) in *.
    set (C := 1175494 * 10 ^ Z.max 0 (-44) * 2 ^ 1074) in *.
    set (T := 10 ^ 44) in *.
    clearbody V D D' C T. split; intros H.
    + specialize (Hprev H). nia.
    + nia.
Qed.

Lemma above_zero (v : number) :
  gt (Math_abs v) (number_of_Z 0) = true <-> above_decimal (Math_abs v) 0 0.
Proof.
  destruct v as [s | s | | s m e]; cbn [Math_abs].
  - split; intros H; vm_compute in H; discriminate.
  - split; intros _; reflexivity.
  - split; intros H; [discriminate | contradiction].
  - unfold gt, lt, compare, above_decimal.
    change (number_of_Z 0) with (S754_zero false).
    cbn [mathematical xcompare compare_decimal]. unfold dyadic_compare.
    rewrite !Z.mul_0_l.
    assert (P : 0 < Z.pos m * 2 ^ (e - Z.min 0 e))
      by (apply Z.mul_pos_pos; [lia | apply pow2_pos; lia]).
    assert (Q : 0 < Z.pos m * 2 ^ Z.max 0 e * 10 ^ Z.max 0 (- 0)).
    { change (10 ^ Z.max 0 (- 0)) with 1. rewrite Z.mul_1_r.
      apply Z.mul_pos_pos; [lia | apply pow2_pos; lia]. }
    apply Z.compare_lt_iff in P. apply Z.compare_gt_iff in Q.
    rewrite P, Q. split; reflexivity.
Qed.

(** [float] by cases. *)

Lemma float_cases (v : number) :
  Types.float v =
    if gt (Math_abs v) Types.float_max
    then Throw (RangeError [Chars "float overflow: "; Subst v;
                            Chars " exceeds maximum float value"])
    else if gt (Math_abs v) (number_of_Z 0)
            && lt (Math_abs v) Types.float_min
    then Throw (RangeError [Chars "float underflow: "; Subst v;
                            Chars " is below minimum float value"])
    else Return v.
Proof. reflexivity. Qed.

(** The contract of [float] in the comparisons of the language. *)

Lemma float_js_contract (v : number) :
  (throws_RangeError_tagged "float overflow: " (Types.float v)
     <-> gt (Math_abs v) Types.float_max = true)
  /\ (throws_RangeError_tagged "float underflow: " (Types.float v)
        <-> gt (Math_abs v) (number_of_Z 0) = true
            /\ lt (Math_abs v) Types.float_min = true)
  /\ (Types.float v = Return v
        <-> gt (Math_abs v) Types.float_max = false
            /\ ~ (gt (Math_abs v) (number_of_Z 0) = true
                  /\ lt (Math_abs v) Types.float_min = true))
  /\ throws_RangeError_tagged "float overflow: "
       (Types.float (number_of_decimal false 34028236 31))
  /\ throws_RangeError_tagged "float underflow: "
       (Types.float (number_of_decimal false 1 (-40)))
  /\ Types.float (number_of_Z 0) = Return (number_of_Z 0)
  /\ ~ throws_TypeError (Types.float v)
  /\ (Number_isInteger (number_of_decimal false 5 (-1)) = false
      /\ Types.float (number_of_decimal false 5 (-1))
         = Return (number_of_decimal false 5 (-1))).
Proof.
  rewrite (float_cases v). unfold throws_RangeError_tagged, throws_TypeError.
  split; [split | split; [split | split; [split | ]]].
  - destruct (gt (Math_abs v) Types.float_max); [reflexivity | ].
    intros [rest H].
    destruct (gt (Math_abs v) (number_of_Z 0)
              && lt (Math_abs v) Types.float_min); discriminate.
  - intros ->. eexists. reflexivity.
  - destruct (gt (Math_abs v) Types.float_max);
      [intros [rest H]; discriminate | ].
    destruct (gt (Math_abs v) (number_of_Z 0));
      [ | intros [rest H]; discriminate].
    destruct (lt (Math_abs v) Types.float_min);
      [ | intros [rest H]; discriminate].
    intros _. split; reflexivity.
  - intros [H0 Hm]. rewrite (below_min_not_above_max _ Hm), H0, Hm.
    eexists. reflexivity.
  - destruct (gt (Math_abs v) Types.float_max); [discriminate | ].
    intros H. split; [reflexivity | ].
    intros [H0 Hm]. rewrite H0, Hm in H. discriminate.
  - intros [Hx Hu]. rewrite Hx.
    destruct (gt (Math_abs v) (number_of_Z 0)); [ | reflexivity].
    destruct (lt (Math_abs v) Types.float_min); [ | reflexivity].
    exfalso. apply Hu. split; reflexivity.
  - split; [eexists; vm_compute; reflexivity | ].
    split; [eexists; vm_compute; reflexivity | ].
    split; [vm_compute; reflexivity | ].
    split; [ | split; vm_compute; reflexivity].
    intros [message H].
    destruct (gt (Math_abs v) Types.float_max); [discriminate | ].
    destruct (gt (Math_abs v) (number_of_Z 0)
              && lt (Math_abs v) Types.float_min); discriminate.
Qed.

(** C7. For every Number [v]: [float v] throws the RangeError tagged
    overflow exactly when [|v| > 3.4028235e38], throws the RangeError
    tagged underflow exactly when [0 < |v| < 1.175494e-38], and in every
    other case returns [v] itself.  [float(3.4028236e38)] overflows,
    [float(1e-40)] underflows, [float(0)] succeeds.  There is no
    whole-number check: [float] never throws a TypeError, and
    [float(0.5)] succeeds.  On binary64 data the two bounds, compared as
    Numbers, cut exactly where the decimals [34028235 * 10^31] and
    [1175494 * 10^-44] cut. *)

Theorem C7_float_contract (v : number) :
  (throws_RangeError_tagged "float overflow: " (Types.float v)
     <-> gt (Math_abs v) Types.float_max = true)
  /\ (throws_RangeError_tagged "float underflow: " (Types.float v)
        <-> gt (Math_abs v) (number_of_Z 0) = true
            /\ lt (Math_abs v) Types.float_min = true)
  /\ (Types.float v = Return v
        <-> gt (Math_abs v) Types.float_max = false
            /\ ~ (gt (Math_abs v) (number_of_Z 0) = true
                  /\ lt (Math_abs v) Types.float_min = true))
  /\ throws_RangeError_tagged "float overflow: "
       (Types.float (number_of_decimal false 34028236 31))
  /\ throws_RangeError_tagged "float underflow: "
       (Types.float (number_of_decimal false 1 (-40)))
  /\ Types.float (number_of_Z 0) = Return (number_of_Z 0)
  /\ ~ throws_TypeError (Types.float v)
  /\ (Number_isInteger (number_of_decimal false 5 (-1)) = false
      /\ Types.float (number_of_decimal false 5 (-1))
         = Return (number_of_decimal false 5 (-1)))
  /\ (binary64 v ->
      (throws_RangeError_tagged "float overflow: " (Types.float v)
         <-> above_decimal (Math_abs v) 34028235 31)
      /\ (throws_RangeError_tagged "float underflow: " (Types.float v)
          <-> above_decimal (Math_abs v) 0 0
              /\ below_decimal (Math_abs v) 1175494 (-44))).
Proof.
  pose proof (float_js_contract v) as (Hover & Hunder & Hret & Hrest).
  split; [exact Hover | split; [exact Hunder | split; [exact Hret | ]]].
  destruct Hrest as (E1 & E2 & E3 & Hty & E4).
  split; [exact E1 | split; [exact E2 | split; [exact E3 | ]]].
  split; [exact Hty | split; [exact E4 | ]].
  intros Hv. split.
  - rewrite Hover. apply above_float_max. exact Hv.
  - rewrite Hunder, above_zero, (below_float_min v Hv). reflexivity.
Qed.

Lemma C7_float_contract_witness :
  binary64 (number_of_decimal true 1 39)
  /\ above_decimal (Math_abs (number_of_decimal true 1 39)) 34028235 31
  /\ throws_RangeError_tagged "float overflow: "
       (Types.float (number_of_decimal true 1 39)).
Proof.
  assert (Hv : binary64 (number_of_decimal true 1 39))
    by (vm_compute; reflexivity).
  assert (Ha : above_decimal (Math_abs (number_of_decimal true 1 39))
                 34028235 31) by (vm_compute; reflexivity).
  split; [exact Hv | split; [exact Ha | ]].
  destruct (C7_float_contract (number_of_decimal true 1 39))
    as (_ & _ & _ & _ & _ & _ & _ & _ & Hdec).
  apply (proj1 (Hdec Hv)). exact Ha.
Defined.

End FloatFacts.

(* ================================================================== *)
(** * Properties of the mapping engine                                  *)
(* ================================================================== *)

Module MapperFacts.
Import JS Notions NumberFacts ParseFacts ConstructorFacts TypeMapper.

(** ** Lookups *)

Lemma own_property_absent {A : Type} (o : list (string * A)) (key : string) :
  ~ In key (map fst o) -> own_property o key = None.
Proof.
  induction o as [ | [k a] o IH]; simpl; intros H; [reflexivity | ].
  destruct (String.eqb_spec k key) as [E | E].
  - exfalso. apply H. left. exact E.
  - apply IH. intros Hin. apply H. right. exact Hin.
Qed.

Lemma existsb_eqb_absent (key : string) (l : list string) :
  ~ In key l -> existsb (String.eqb key) l = false.
Proof.
  induction l as [ | k l IH]; simpl; intros H; [reflexivity | ].
  destruct (String.eqb_spec key k) as [E | E].
  - exfalso. apply H. left. symmetry. exact E.
  - apply IH. intros Hin. apply H. right. exact Hin.
Qed.

Lemma Get_absent {A : Type} (o : list (string * A)) (key : string) :
  ~ In key (map fst o) -> ~ In key ObjectPrototype -> Get o key = Undefined.
Proof.
  intros Ho Hp. unfold Get.
  rewrite (own_property_absent o key Ho).
  rewrite (existsb_eqb_absent key ObjectPrototype Hp). reflexivity.
Qed.

Section Host.

Variable nativeText : string -> string.

(** ** Numeric literals *)

Lemma inferNumericLiteral_fraction (text : string) :
  includes text "." = true -> inferNumericLiteral text = "double".
Proof. intros H. unfold inferNumericLiteral. rewrite H. reflexivity. Qed.

Lemma inferNumericLiteral_whole (text : string) (z : Z) :
  includes text "." = false ->
  has_value (parseFloat text) z ->
  inferNumericLiteral text =
    if (-32768 <=? z) && (z <=? 32767) then "int16_t"
    else if (-2147483648 <=? z) && (z <=? 2147483647) then "int32_t"
    else "int64_t".
Proof.
  intros Hdot Hz. unfold inferNumericLiteral. rewrite Hdot.
  assert (Hi : Number_isInteger (parseFloat text) = true)
    by (apply isInteger_has_value; exists z; exact Hz).
  rewrite Hi.
  rewrite (ge_has_value _ _ _ _ Hz has_value_m32768).
  rewrite (le_has_value _ _ _ _ Hz has_value_32767).
  rewrite (ge_has_value _ _ _ _ Hz has_value_m2147483648).
  rewrite (le_has_value _ _ _ _ Hz has_value_2147483647).
  reflexivity.
Qed.

Lemma inferNumericLiteral_not_whole (text : string) :
  Number_isInteger (parseFloat text) = false ->
  inferNumericLiteral text = "double".
Proof.
  intros H. unfold inferNumericLiteral. rewrite H.
  destruct (includes text "."); reflexivity.
Qed.

(** A text of digits only is classified by the integer it spells. *)

Lemma parseFloat_digits_small (s : string) :
  s <> "" -> all_digits s = true -> decimal_value s < 2 ^ 53 ->
  has_value (parseFloat s) (decimal_value s).
Proof.
  intros Hne Hd Hlt. rewrite (parseFloat_all_digits s Hne Hd).
  pose proof (decimal_value_from_nonneg s 0 Hd (Z.le_refl 0)) as H0.
  fold (decimal_value s) in H0.
  destruct (Z.eq_dec (decimal_value s) 0) as [E | E].
  - rewrite E. vm_compute. reflexivity.
  - destruct (round_binary64_exact false (decimal_value s)) as (p & -> & Hp);
      [lia | ].
    assert (HN : 0 < decimal_value s) by lia.
    assert (Hk : Z.log2 (decimal_value s) < 53)
      by (apply Z.log2_lt_pow2; lia).
    pose proof (Z.log2_nonneg (decimal_value s)) as Hk0.
    unfold has_value. cbn [mathematical xcompare].
    rewrite (dyadic_compare_scaled _ _ _ _ (Z.log2 (decimal_value s) - 52))
      by lia.
    unfold scaled. rewrite Z.sub_diag, Z.pow_0_r, Z.mul_1_r, Hp.
    replace (0 - (Z.log2 (decimal_value s) - 52))
      with (52 - Z.log2 (decimal_value s)) by lia.
    apply Z.compare_refl.
Qed.

Lemma parseFloat_digits_large (s : string) :
  s <> "" -> all_digits s = true ->
  2 ^ 53 <= decimal_value s < 2 ^ 1023 ->
  exists z, has_value (parseFloat s) z /\ 2 ^ 53 <= z.
Proof.
  intros Hne Hd [Hlo Hhi]. rewrite (parseFloat_all_digits s Hne Hd).
  destruct (round_binary64_large false (decimal_value s) Hlo)
    as [[_ Hinf] | (p & e & -> & He & Hp)]; [lia | ].
  exists (Z.pos p * 2 ^ e). split.
  - apply has_value_finite_nonneg. lia.
  - change (2 ^ 53) with (2 ^ 52 * 2 ^ 1).
    apply Z.mul_le_mono_nonneg; try lia.
    apply Z.pow_le_mono_r; lia.
Qed.

Lemma inferNumericLiteral_digits (s : string) :
  s <> "" -> all_digits s = true ->
  (decimal_value s <= 32767 -> inferNumericLiteral s = "int16_t")
  /\ (32767 < decimal_value s <= 2147483647 ->
      inferNumericLiteral s = "int32_t")
  /\ (2147483647 < decimal_value s < 2 ^ 1023 ->
      inferNumericLiteral s = "int64_t").
Proof.
  intros Hne Hd.
  pose proof (includes_all_digits s Hd) as Hdot.
  pose proof (decimal_value_from_nonneg s 0 Hd (Z.le_refl 0)) as H0.
  fold (decimal_value s) in H0.
  assert (H53 : 2147483647 < 2 ^ 53) by reflexivity.
  split; [ | split].
  - intros H.
    rewrite (inferNumericLiteral_whole s _ Hdot
               (parseFloat_digits_small s Hne Hd ltac:(lia))).
    destruct (Z.leb_spec (-32768) (decimal_value s));
      destruct (Z.leb_spec (decimal_value s) 32767); try lia. reflexivity.
  - intros H.
    rewrite (inferNumericLiteral_whole s _ Hdot
               (parseFloat_digits_small s Hne Hd ltac:(lia))).
    destruct (Z.leb_spec (-32768) (decimal_value s));
      destruct (Z.leb_spec (decimal_value s) 32767);
      destruct (Z.leb_spec (-2147483648) (decimal_value s));
      destruct (Z.leb_spec (decimal_value s) 2147483647);
      try lia; reflexivity.
  - intros H.
    assert (Hz : exists z, has_value (parseFloat s) z /\ 2147483647 < z).
    { destruct (Z.lt_ge_cases (decimal_value s) (2 ^ 53)) as [Hs | Hl].
      - exists (decimal_value s). split; [ | lia].
        apply parseFloat_digits_small; assumption.
      - destruct (parseFloat_digits_large s Hne Hd ltac:(lia))
          as (z & Hz & Hge).
        exists z. split; [exact Hz | lia]. }
    destruct Hz as (z & Hz & Hgt).
    rewrite (inferNumericLiteral_whole s z Hdot Hz).
    destruct (Z.leb_spec (-32768) z); destruct (Z.leb_spec z 32767);
      destruct (Z.leb_spec (-2147483648) z);
      destruct (Z.leb_spec z 2147483647);
      try lia; reflexivity.
Qed.

(** ** Array annotations, to any depth *)

Lemma mapTypeNode_array_of (texts : list string) (t : TypeNode) :
  ToString nativeText (mapTypeNode nativeText (array_of texts t))
  = vector_of (List.length texts)
      (ToString nativeText (mapTypeNode nativeText t)).
Proof.
  induction texts as [ | text texts IH]; simpl; [reflexivity | ].
  rewrite IH. reflexivity.
Qed.

(** ** When the result is a string

    Both functions are total, and neither has a throwing path; the result
    is a string unless a name of [Object.prototype] reaches one of the
    two tables. *)

Lemma lookup_or_auto_string (table : list (string * string))
  (key : string) :
  ~ In key ObjectPrototype -> exists s, lookup_or_auto table key = Str s.
Proof.
  intros Hp. unfold lookup_or_auto, Get.
  destruct (own_property table key) as [s | ]; [eexists; reflexivity | ].
  rewrite (existsb_eqb_absent key ObjectPrototype Hp).
  eexists. reflexivity.
Qed.

Lemma mapTypeNode_string (typeNode : TypeNode) :
  ~ In (getText typeNode) ObjectPrototype ->
  exists s, mapTypeNode nativeText typeNode = Str s.
Proof.
  destruct typeNode as [text T | text Ts | text]; intros Hp.
  - eexists. reflexivity.
  - eexists. reflexivity.
  - apply lookup_or_auto_string. exact Hp.
Qed.

Lemma inferFromExpression_string (expr : Expression) :
  (forall funcName args,
     expr = CallExpression funcName args -> ~ In funcName ObjectPrototype) ->
  exists s, inferFromExpression nativeText expr = Str s.
Proof.
  destruct expr as [text | text | | | elements | funcName args | ];
    intros Hp; try (eexists; reflexivity).
  - destruct elements; eexists; reflexivity.
  - cbn [inferFromExpression]. apply lookup_or_auto_string.
    apply (Hp funcName args). reflexivity.
Qed.

(** ** The claims about the engine *)

(** A numeric literal is classified by its [text], the value text the
    scanner stored: when that text contains a [.] the result is [double];
    otherwise, when the value [parseFloat] gives for it is the whole
    number [z], the result is [int16_t] for [z] in [[-32768, 32767]],
    else [int32_t] for [z] in [[-2147483648, 2147483647]], else
    [int64_t]; and when that value is not a whole number the result is
    [double].  For a text of decimal digits the value is the integer [N]
    the digits spell: [int16_t] up to [32767], [int32_t] up to
    [2147483647], [int64_t] above (digit texts stay below [10^21]).  The
    bounds are inclusive. *)

Theorem numeric_literal_by_text (text : string) :
  (includes text "." = true ->
     inferFromExpression nativeText (NumericLiteral text) = Str "double")
  /\ (includes text "." = false ->
      forall z, has_value (parseFloat text) z ->
        (-32768 <= z <= 32767 ->
           inferFromExpression nativeText (NumericLiteral text)
           = Str "int16_t")
        /\ (~ (-32768 <= z <= 32767) ->
            -2147483648 <= z <= 2147483647 ->
            inferFromExpression nativeText (NumericLiteral text)
            = Str "int32_t")
        /\ (~ (-2147483648 <= z <= 2147483647) ->
            inferFromExpression nativeText (NumericLiteral text)
            = Str "int64_t"))
  /\ (Number_isInteger (parseFloat text) = false ->
      inferFromExpression nativeText (NumericLiteral text) = Str "double")
  /\ (text <> "" -> all_digits text = true ->
      (decimal_value text <= 32767 ->
         inferFromExpression nativeText (NumericLiteral text)
         = Str "int16_t")
      /\ (32767 < decimal_value text <= 2147483647 ->
          inferFromExpression nativeText (NumericLiteral text)
          = Str "int32_t")
      /\ (2147483647 < decimal_value text < 10 ^ 21 ->
          inferFromExpression nativeText (NumericLiteral text)
          = Str "int64_t"))
  /\ inferFromExpression nativeText (NumericLiteral "42") = Str "int16_t"
  /\ inferFromExpression nativeText (NumericLiteral "100000")
     = Str "int32_t"
  /\ inferFromExpression nativeText (NumericLiteral "32767") = Str "int16_t"
  /\ inferFromExpression nativeText (NumericLiteral "32768") = Str "int32_t"
  /\ inferFromExpression nativeText (NumericLiteral "2147483647")
     = Str "int32_t"
  /\ inferFromExpression nativeText (NumericLiteral "2147483648")
     = Str "int64_t"
  /\ inferFromExpression nativeText (NumericLiteral "1e-7") = Str "double".
Proof.
  cbn [inferFromExpression].
  split; [ | split; [ | split; [ | split]]].
  - intros H. rewrite (inferNumericLiteral_fraction text H). reflexivity.
  - intros Hdot z Hz. rewrite (inferNumericLiteral_whole text z Hdot Hz).
    destruct (Z.leb_spec (-32768) z); destruct (Z.leb_spec z 32767);
      destruct (Z.leb_spec (-2147483648) z);
      destruct (Z.leb_spec z 2147483647); cbn [andb];
      (split; [ | split]); intros; try reflexivity; lia.
  - intros H. rewrite (inferNumericLiteral_not_whole text H). reflexivity.
  - intros Hne Hd.
    destruct (inferNumericLiteral_digits text Hne Hd) as (H16 & H32 & H64).
    assert (P : 10 ^ 21 < 2 ^ 1023) by reflexivity.
    split; [ | split]; intros H.
    + rewrite (H16 H). reflexivity.
    + rewrite (H32 H). reflexivity.
    + rewrite H64 by lia. reflexivity.
  - repeat split; vm_compute; reflexivity.
Qed.

(** The stored text of a literal whose value is whole never has a [.],
    whatever the source of the literal was. *)

Lemma scannedText_no_point (source text : string) :
  scannedText source = Some text -> includes text "." = false.
Proof.
  unfold scannedText, NumberToString_whole.
  destruct (whole_value (parseFloat source)) as [z | ]; [ | discriminate].
  destruct (Z.abs z <? 2 ^ 53); [ | discriminate].
  intros H. injection H as <-.
  assert (Hu : forall u,
             includes (DecimalString.NilEmpty.string_of_uint u) "."
             = false).
  { induction u as [ | u IH | u IH | u IH | u IH | u IH | u IH | u IH
                     | u IH | u IH | u IH];
      [reflexivity | cbn [DecimalString.NilEmpty.string_of_uint includes];
                     rewrite IH; reflexivity .. ]. }
  assert (Hn : includes (DecimalString.NilZero.string_of_uint
                           (N.to_uint (Z.to_N (Z.abs z)))) "." = false).
  { unfold DecimalString.NilZero.string_of_uint.
    destruct (N.to_uint (Z.to_N (Z.abs z))); try reflexivity; apply Hu. }
  destruct (z <? 0); [ | exact Hn].
  change ("-" ++ ?x) with (String "-" x). cbn [includes].
  rewrite Hn. reflexivity.
Qed.

(** C1 (the input the claim fails on). The literal [42.0] has a [.] in
    its lexical text, but the code reads the [text] of the node, which
    the scanner stored as [42]: the test for a decimal point fails and
    the result is [int16_t], not [double].  The same holds of every
    literal whose value is whole: its stored text has no [.]. *)

Theorem C1_decimal_point_lost :
  includes "42.0" "." = true
  /\ scannedText "42.0" = Some "42"
  /\ includes "42" "." = false
  /\ inferFromExpression nativeText (NumericLiteral "42") = Str "int16_t"
  /\ (forall source text,
        scannedText source = Some text -> includes text "." = false).
Proof.
  split; [reflexivity | ].
  split; [vm_compute; reflexivity | ].
  split; [reflexivity | ].
  split; [vm_compute; reflexivity | ].
  exact scannedText_no_point.
Qed.

(** C2. Annotation mapping follows the structure of the annotation: an
    array of [T] maps to [std::vector<M(T)>], a tuple of [T1 .. Tn] to
    [std::tuple<M(T1), ..., M(Tn)>] in the order of the elements, and
    [n] nested array types give exactly [n] nested vectors; [short[]]
    maps to [std::vector<int16_t>] and [short[][]] to
    [std::vector<std::vector<int16_t>>]. *)

Theorem C2_structural_mapping :
  (forall text T,
     mapTypeNode nativeText (ArrayTypeNode text T)
     = Str ("std::vector<" ++ ToString nativeText (mapTypeNode nativeText T)
              ++ ">"))
  /\ (forall text Ts,
        mapTypeNode nativeText (TupleTypeNode text Ts)
        = Str ("std::tuple<"
                 ++ String.concat ", "
                      (map (fun T => ToString nativeText
                                       (mapTypeNode nativeText T)) Ts)
                 ++ ">"))
  /\ (forall texts T,
        ToString nativeText (mapTypeNode nativeText (array_of texts T))
        = vector_of (List.length texts)
            (ToString nativeText (mapTypeNode nativeText T)))
  /\ mapTypeNode nativeText (ArrayTypeNode "short[]" (OtherTypeNode "short"))
     = Str "std::vector<int16_t>"
  /\ mapTypeNode nativeText
       (ArrayTypeNode "short[][]"
          (ArrayTypeNode "short[]" (OtherTypeNode "short")))
     = Str "std::vector<std::vector<int16_t>>"
  /\ mapTypeNode nativeText
       (TupleTypeNode "[short, string[]]"
          [OtherTypeNode "short";
           ArrayTypeNode "string[]" (OtherTypeNode "string")])
     = Str "std::tuple<int16_t, std::vector<std::string>>".
Proof.
  split; [ | split; [ | split; [ | repeat split]]].
  - intros text T. reflexivity.
  - intros text Ts. cbn [mapTypeNode]. rewrite map_map. reflexivity.
  - intros texts T. apply mapTypeNode_array_of.
Qed.

(** C3. A variable declaration with a type annotation gets the mapping
    of the annotation, whatever its initializer; without annotation and
    with an initializer, the inference from the initializer; with
    neither, [auto].  A function's return type and a parameter's type
    are the mapping of the annotation when there is one and [auto]
    otherwise, whatever the body or the default value. *)

Theorem C3_resolution_precedence :
  (forall T init,
     getVariableType nativeText
       {| var_type := Some T; initializer := init |}
     = mapTypeNode nativeText T)
  /\ (forall init,
        getVariableType nativeText
          {| var_type := None; initializer := Some init |}
        = inferFromExpression nativeText init)
  /\ getVariableType nativeText {| var_type := None; initializer := None |}
     = Str "auto"
  /\ (forall T params statements,
        getFunctionReturnType nativeText
          {| fn_type := Some T; fn_parameters := params;
             body := statements |}
        = mapTypeNode nativeText T)
  /\ (forall params statements,
        getFunctionReturnType nativeText
          {| fn_type := None; fn_parameters := params; body := statements |}
        = Str "auto")
  /\ (forall T init,
        getParameterType nativeText
          {| param_type := Some T; param_initializer := init |}
        = mapTypeNode nativeText T)
  /\ (forall init,
        getParameterType nativeText
          {| param_type := None; param_initializer := init |}
        = Str "auto").
Proof. repeat split. Qed.

(** C4 (amended). For every call expression: a callee named [int],
    [short], [long], [float], [double], [bool], [char] or [string] gives
    that name's entry of the constructor table ([string] giving
    [std::string]), whatever the arguments; a callee whose name is none
    of these eight, and no member of [Object.prototype], gives [auto]. *)

Theorem C4_call_expression (funcName : string) (args : list Expression) :
  inferFromExpression nativeText (CallExpression "int" args) = Str "int32_t"
  /\ inferFromExpression nativeText (CallExpression "short" args)
     = Str "int16_t"
  /\ inferFromExpression nativeText (CallExpression "long" args)
     = Str "int64_t"
  /\ inferFromExpression nativeText (CallExpression "float" args)
     = Str "float"
  /\ inferFromExpression nativeText (CallExpression "double" args)
     = Str "double"
  /\ inferFromExpression nativeText (CallExpression "bool" args)
     = Str "bool"
  /\ inferFromExpression nativeText (CallExpression "char" args)
     = Str "char"
  /\ inferFromExpression nativeText (CallExpression "string" args)
     = Str "std::string"
  /\ (~ In funcName (BoundedValueConstructors ++ ["string"])%list ->
      ~ In funcName ObjectPrototype ->
      inferFromExpression nativeText (CallExpression funcName args)
      = Str "auto").
Proof.
  repeat split.
  intros Hn Hp. cbn [inferFromExpression]. unfold lookup_or_auto.
  rewrite (Get_absent typeConstructors funcName Hn Hp). reflexivity.
Qed.

(** C5 (the input the claim fails on). An annotation, or a callee, named
    like a member of [Object.prototype] makes the lookup in the table
    return that member: the result is then no string at all. *)

Theorem C5_result_not_a_string :
  getVariableType nativeText
    {| var_type := Some (OtherTypeNode "constructor");
       initializer := None |}
  = Builtin "constructor"
  /\ getVariableType nativeText
       {| var_type := None;
          initializer := Some (CallExpression "toString" []) |}
     = Builtin "toString"
  /\ (forall s,
        getVariableType nativeText
          {| var_type := Some (OtherTypeNode "constructor");
             initializer := None |}
        <> Str s).
Proof.
  split; [reflexivity | split; [reflexivity | ]].
  intros s. vm_compute. discriminate.
Qed.

End Host.

Lemma C1_decimal_point_lost_witness :
  scannedText "1.0e3" = Some "1000"
  /\ includes "1.0e3" "." = true
  /\ includes "1000" "." = false.
Proof.
  assert (H : scannedText "1.0e3" = Some "1000")
    by (vm_compute; reflexivity).
  split; [exact H | split; [reflexivity | ]].
  destruct (C1_decimal_point_lost v8_nativeText) as (_ & _ & _ & _ & Hall).
  apply (Hall "1.0e3" "1000" H).
Defined.

Lemma numeric_literal_by_text_witness :
  includes "100000" "." = false
  /\ has_value (parseFloat "100000") 100000
  /\ inferFromExpression v8_nativeText (NumericLiteral "100000")
     = Str "int32_t"
  /\ all_digits "4294967296" = true
  /\ inferFromExpression v8_nativeText (NumericLiteral "4294967296")
     = Str "int64_t".
Proof.
  assert (Hd : includes "100000" "." = false) by reflexivity.
  assert (Hv : has_value (parseFloat "100000") 100000)
    by (vm_compute; reflexivity).
  assert (Ha : all_digits "4294967296" = true) by reflexivity.
  split; [exact Hd | split; [exact Hv | split; [ | split; [exact Ha | ]]]].
  - destruct (numeric_literal_by_text v8_nativeText "100000") as (_ & H & _).
    destruct (H Hd 100000 Hv) as (_ & H32 & _).
    apply H32; lia.
  - destruct (numeric_literal_by_text v8_nativeText "4294967296")
      as (_ & _ & _ & H & _).
    destruct (H ltac:(discriminate) Ha) as (_ & _ & H64).
    apply H64. vm_compute. split; reflexivity.
Defined.

(** A call of [string] is a call of none of the seven constructors, and
    does not map to [auto]. *)

Lemma C4_counterexample :
  ~ In "string" BoundedValueConstructors
  /\ inferFromExpression v8_nativeText
       (CallExpression "string" [NumericLiteral "1"])
     = Str "std::string"
  /\ inferFromExpression v8_nativeText
       (CallExpression "string" [NumericLiteral "1"])
     <> Str "auto".
Proof.
  split; [ | split; [reflexivity | vm_compute; discriminate]].
  simpl. intros H. repeat (destruct H as [H | H]; [discriminate | ]).
  exact H.
Qed.

Lemma C4_call_expression_witness :
  inferFromExpression v8_nativeText
    (CallExpression "parseInt" [StringLiteral "7"])
  = Str "auto".
Proof.
  apply (C4_call_expression v8_nativeText "parseInt" [StringLiteral "7"]).
  - simpl. intros H. repeat (destruct H as [H | H]; [discriminate | ]).
    exact H.
  - simpl. intros H. repeat (destruct H as [H | H]; [discriminate | ]).
    exact H.
Defined.

End MapperFacts.

(* ================================================================== *)
(** * Properties of the metadata table and of the function wrapper      *)
(* ================================================================== *)

Module TableFacts.
Import JS Notions MapperFacts.

(** Case analysis on which key of a table, if any, a name is. *)

Ltac by_key typeName :=
  repeat match goal with
         | |- context [String.eqb ?k typeName] =>
             destruct (String.eqb k typeName)
         end;
  try reflexivity;
  destruct (existsb (String.eqb typeName) ObjectPrototype); reflexivity.

Lemma append_assoc (a b c : string) : (a ++ b) ++ c = a ++ (b ++ c).
Proof.
  induction a as [ | ch a IH]; simpl; [reflexivity | ].
  rewrite IH. reflexivity.
Qed.

(** [getCppType] is the table's [cppType] for a key of the table and
    [auto] for every other name. *)

Lemma getCppType_table (typeName : string) :
  Types.getCppType typeName =
    match own_property Types.TYPE_METADATA typeName with
    | Some metadata => Types.cppType metadata
    | None => "auto"
    end.
Proof.
  unfold Types.getCppType, Get.
  destruct (own_property Types.TYPE_METADATA typeName) as [md | ] eqn:E.
  - unfold Types.TYPE_METADATA in E. cbn [own_property] in E.
    repeat match type of E with
           | (if ?b then _ else _) = _ => destruct b
           end;
      try discriminate; injection E as <-; reflexivity.
  - destruct (existsb (String.eqb typeName) ObjectPrototype); reflexivity.
Qed.

Lemma concat_render_parameters (target : string -> string)
  (ps : list Types.Param) :
  String.concat ", "
    (map (fun p => target (Types.param_type p) ++ " " ++ Types.param_name p)
         ps)
  = render_parameters target
      (map (fun p => (Types.param_name p, Types.param_type p)) ps).
Proof.
  induction ps as [ | p ps IH]; [reflexivity | ].
  destruct ps as [ | p' ps]; [reflexivity | ].
  change (String.concat ", "
            (map (fun p => target (Types.param_type p) ++ " "
                             ++ Types.param_name p) (p :: p' :: ps)))
    with ((target (Types.param_type p) ++ " " ++ Types.param_name p)
            ++ ", "
            ++ String.concat ", "
                 (map (fun p => target (Types.param_type p) ++ " "
                                  ++ Types.param_name p) (p' :: ps))).
  rewrite IH.
  change (render_parameters target
            (map (fun p => (Types.param_name p, Types.param_type p))
                 (p :: p' :: ps)))
    with (target (Types.param_type p) ++ " " ++ Types.param_name p ++ ", "
            ++ render_parameters target
                 (map (fun p => (Types.param_name p, Types.param_type p))
                      (p' :: ps))).
  rewrite !append_assoc. reflexivity.
Qed.

(** C8. The rendered signature is
    [<getCppType returnType> <name>(<p1>, ..., <pn>)], each parameter
    rendered as [<getCppType type> <name>], the parameters joined by
    [", "] in declaration order; it depends on the name, the return type
    and the parameters only, not on the wrapped callable.  For [add],
    returning [int], with parameters [a : int] and [b : int] it is
    [int32_t add(int32_t a, int32_t b)]. *)

Theorem C8_signature :
  (forall (F : Type) (this : Types.VexFunction F),
     Types.getCppSignature this
     = renderSignature Types.getCppType (Types.fn_name this)
         (Types.returnType this)
         (map (fun p => (Types.param_name p, Types.param_type p))
              (Types.parameters this)))
  /\ (forall (F G : Type) (f : F) (g : G) name returnType parameters,
        Types.getCppSignature
          {| Types.fn_name := name; Types.returnType := returnType;
             Types.parameters := parameters; Types.func := f |}
        = Types.getCppSignature
            {| Types.fn_name := name; Types.returnType := returnType;
               Types.parameters := parameters; Types.func := g |})
  /\ (forall typeName,
        Types.getCppType typeName =
          match own_property Types.TYPE_METADATA typeName with
          | Some metadata => Types.cppType metadata
          | None => "auto"
          end)
  /\ (forall (F : Type) (f : F),
        Types.getCppSignature
          {| Types.fn_name := "add"; Types.returnType := "int";
             Types.parameters :=
               [ {| Types.param_name := "a"; Types.param_type := "int" |};
                 {| Types.param_name := "b"; Types.param_type := "int" |} ];
             Types.func := f |}
        = "int32_t add(int32_t a, int32_t b)").
Proof.
  split; [ | split; [ | split]].
  - intros F this. unfold Types.getCppSignature, renderSignature.
    rewrite concat_render_parameters. reflexivity.
  - reflexivity.
  - exact getCppType_table.
  - intros F f. vm_compute. reflexivity.
Qed.

(** Outside the names of [Object.prototype], [isPrimitiveType] is
    membership in the table. *)

Lemma isPrimitiveType_own (typeName : string) :
  ~ In typeName ObjectPrototype ->
  Types.isPrimitiveType typeName = true <-> In typeName PrimitiveTypeNames.
Proof.
  intros Hp. unfold Types.isPrimitiveType, HasProperty, Get.
  rewrite (existsb_eqb_absent typeName ObjectPrototype Hp).
  unfold Types.TYPE_METADATA, PrimitiveTypeNames. cbn [own_property In].
  repeat match goal with
         | |- context [String.eqb ?k typeName] =>
             destruct (String.eqb_spec k typeName)
         end;
    split; intros H; try reflexivity; try discriminate; tauto.
Qed.

(** C9 (the input the claim fails on). [toString] is no key of the
    metadata table, and [isPrimitiveType] answers [true] for it: the [in]
    operator also finds what the table inherits. *)

Theorem C9_isPrimitiveType_inherited :
  ~ In "toString" PrimitiveTypeNames
  /\ Types.isPrimitiveType "toString" = true
  /\ Types.isPrimitiveType "constructor" = true.
Proof.
  split; [ | split; reflexivity].
  simpl. intros H. repeat (destruct H as [H | H]; [discriminate | ]).
  exact H.
Qed.

(** C10. The unnamed copy and [src/Types.ts] define the same type
    system: on every input the constructors end the same way with the
    same value or the same exception, the utilities and predicates return
    the same answers, the tables hold the same entries in the same order,
    and the wrappers render the same signature. *)

Theorem C10_copy_agrees :
  (forall v, Part000.int v = Types.int v)
  /\ (forall v, Part000.short v = Types.short v)
  /\ (forall v, Part000.long v = Types.long v)
  /\ (forall v, Part000.float v = Types.float v)
  /\ (forall v, Part000.double v = Types.double v)
  /\ (forall b, Part000.bool b = Types.bool b)
  /\ (forall s, Part000.char s = Types.char s)
  /\ map fields_of_Part000 Part000.TYPE_METADATA
     = map fields_of_Types Types.TYPE_METADATA
  /\ (forall typeName, Part000.getCppType typeName = Types.getCppType typeName)
  /\ (forall v typeName,
        Part000.isWithinBounds v typeName = Types.isWithinBounds v typeName)
  /\ (forall typeName,
        Part000.isIntegerType typeName = Types.isIntegerType typeName)
  /\ (forall typeName,
        Part000.isFloatingType typeName = Types.isFloatingType typeName)
  /\ (forall typeName,
        Part000.isNumericType typeName = Types.isNumericType typeName)
  /\ (forall typeName,
        Part000.isPrimitiveType typeName = Types.isPrimitiveType typeName)
  /\ (forall (F : Type) (f : Types.VexFunction F),
        Part000.getCppSignature (to_Part000 f) = Types.getCppSignature f).
Proof.
  assert (Hcpp : forall typeName,
             Part000.getCppType typeName = Types.getCppType typeName).
  { intros typeName. unfold Part000.getCppType, Types.getCppType, Get.
    unfold Part000.TYPE_METADATA, Types.TYPE_METADATA.
    cbn [own_property]. by_key typeName. }
  repeat split.
  - exact Hcpp.
  - intros v typeName.
    unfold Part000.isWithinBounds, Types.isWithinBounds, Get.
    unfold Part000.TYPE_METADATA, Types.TYPE_METADATA.
    cbn [own_property]. by_key typeName.
  - intros typeName.
    unfold Part000.isPrimitiveType, Types.isPrimitiveType, HasProperty, Get.
    unfold Part000.TYPE_METADATA, Types.TYPE_METADATA.
    cbn [own_property]. by_key typeName.
  - intros F f. unfold Part000.getCppSignature, Types.getCppSignature.
    destruct f as [name returnType parameters func].
    cbn [to_Part000 Part000.parameters Part000.returnType Part000.fn_name
         Types.parameters Types.returnType Types.fn_name].
    rewrite map_map. cbn [Part000.param_type Part000.param_name].
    rewrite Hcpp.
    rewrite (map_ext
               (fun p => Part000.getCppType (Types.param_type p) ++ " "
                           ++ Types.param_name p)
               (fun p => Types.getCppType (Types.param_type p) ++ " "
                           ++ Types.param_name p))
      by (intros p; rewrite Hcpp; reflexivity).
    reflexivity.
Qed.

End TableFacts.

(* ================================================================== *)
(** * Properties across the constructors and [isWithinBounds] *)
(* ================================================================== *)

Module WideningFacts.
Import JS Notions NumberFacts ConstructorFacts FloatFacts.

Lemma has_value_MIN_SAFE : has_value MIN_SAFE_INTEGER (- (2 ^ 53 - 1)).
Proof. vm_compute. reflexivity. Qed.

Lemma has_value_MAX_SAFE : has_value MAX_SAFE_INTEGER (2 ^ 53 - 1).
Proof. vm_compute. reflexivity. Qed.

Lemma long_whole (v : number) (z : Z) :
  has_value v z ->
  Types.long v =
    if (z <? - (2 ^ 53 - 1)) || (2 ^ 53 - 1 <? z)
    then Throw (RangeError [Chars "long overflow: "; Subst v;
                            Chars " is out of safe integer range"])
    else Return v.
Proof.
  intros H. unfold Types.long.
  assert (Hi : Number_isInteger v = true)
    by (apply isInteger_has_value; exists z; exact H).
  rewrite Hi. cbn [negb].
  rewrite (lt_has_value _ _ _ _ H has_value_MIN_SAFE).
  rewrite (gt_has_value _ _ _ _ H has_value_MAX_SAFE).
  reflexivity.
Qed.

Lemma long_TypeError (v : number) :
  throws_TypeError (Types.long v) <-> Number_isInteger v = false.
Proof.
  unfold throws_TypeError, Types.long.
  destruct (Number_isInteger v); cbn [negb]; split.
  - intros [message H].
    destruct (lt v _ || gt v _); discriminate.
  - discriminate.
  - reflexivity.
  - intros _. eexists. reflexivity.
Qed.

(** [long] accepts exactly the whole Numbers between the two safe-integer
    limits: it throws a TypeError on every other kind of Number, and on
    the whole number [z] a RangeError exactly when [|z| > 2^53 - 1]. *)

Theorem long_contract (v : number) :
  (throws_TypeError (Types.long v) <-> ~ exists z, has_value v z)
  /\ (forall z, has_value v z ->
        (throws_RangeError (Types.long v) <-> 2 ^ 53 - 1 < Z.abs z)
        /\ (Z.abs z <= 2 ^ 53 - 1 -> Types.long v = Return v)).
Proof.
  split.
  - rewrite long_TypeError. apply not_whole_iff.
  - intros z H. rewrite (long_whole v z H). unfold throws_RangeError.
    assert (P : 0 < 2 ^ 53 - 1) by reflexivity.
    destruct (Z.ltb_spec z (- (2 ^ 53 - 1)));
      destruct (Z.ltb_spec (2 ^ 53 - 1) z);
      cbn [orb]; (split; [split | ]);
      try (intros; lia);
      try (intros _; eexists; reflexivity);
      try (intros [message Hm]; discriminate);
      try reflexivity.
Qed.

Lemma long_contract_witness :
  has_value (number_of_Z (2 ^ 53)) (2 ^ 53)
  /\ throws_RangeError (Types.long (number_of_Z (2 ^ 53)))
  /\ Types.long (number_of_Z (- (2 ^ 53 - 1)))
     = Return (number_of_Z (- (2 ^ 53 - 1))).
Proof.
  assert (Hv : has_value (number_of_Z (2 ^ 53)) (2 ^ 53))
    by (vm_compute; reflexivity).
  split; [exact Hv | split].
  - apply (proj2 (long_contract (number_of_Z (2 ^ 53))) (2 ^ 53) Hv).
    vm_compute. reflexivity.
  - apply (proj2 (long_contract (number_of_Z (- (2 ^ 53 - 1))))
             (- (2 ^ 53 - 1)) has_value_MIN_SAFE).
    vm_compute. discriminate.
Defined.

(** Success of a constructor, read back. *)

Lemma short_accepts (v : number) :
  Types.short v = Return v
  <-> exists z, has_value v z /\ -32768 <= z <= 32767.
Proof.
  split.
  - intros H.
    assert (Hi : Number_isInteger v = true).
    { destruct (Number_isInteger v) eqn:E; [reflexivity | ].
      apply short_TypeError in E. destruct E as [m E].
      rewrite E in H. discriminate. }
    apply isInteger_has_value in Hi. destruct Hi as [z Hz].
    exists z. split; [exact Hz | ].
    rewrite (short_whole v z Hz) in H.
    destruct (Z.ltb_spec z (-32768)); destruct (Z.ltb_spec 32767 z);
      cbn [orb] in H; try discriminate. lia.
  - intros (z & Hz & Hr). rewrite (short_whole v z Hz).
    destruct (Z.ltb_spec z (-32768)); destruct (Z.ltb_spec 32767 z);
      try lia. reflexivity.
Qed.

Lemma int_accepts (v : number) :
  Types.int v = Return v
  <-> exists z, has_value v z /\ -2147483648 <= z <= 2147483647.
Proof.
  split.
  - intros H.
    assert (Hi : Number_isInteger v = true).
    { destruct (Number_isInteger v) eqn:E; [reflexivity | ].
      apply int_TypeError in E. destruct E as [m E].
      rewrite E in H. discriminate. }
    apply isInteger_has_value in Hi. destruct Hi as [z Hz].
    exists z. split; [exact Hz | ].
    rewrite (int_whole v z Hz) in H.
    destruct (Z.ltb_spec z (-2147483648));
      destruct (Z.ltb_spec 2147483647 z);
      cbn [orb] in H; try discriminate. lia.
  - intros (z & Hz & Hr). rewrite (int_whole v z Hz).
    destruct (Z.ltb_spec z (-2147483648));
      destruct (Z.ltb_spec 2147483647 z);
      try lia. reflexivity.
Qed.

Lemma long_accepts (v : number) :
  Types.long v = Return v
  <-> exists z, has_value v z /\ - (2 ^ 53 - 1) <= z <= 2 ^ 53 - 1.
Proof.
  split.
  - intros H.
    assert (Hi : Number_isInteger v = true).
    { destruct (Number_isInteger v) eqn:E; [reflexivity | ].
      apply long_TypeError in E. destruct E as [m E].
      rewrite E in H. discriminate. }
    apply isInteger_has_value in Hi. destruct Hi as [z Hz].
    exists z. split; [exact Hz | ].
    rewrite (long_whole v z Hz) in H.
    destruct (Z.ltb_spec z (- (2 ^ 53 - 1)));
      destruct (Z.ltb_spec (2 ^ 53 - 1) z);
      cbn [orb] in H; try discriminate. lia.
  - intros (z & Hz & Hr). rewrite (long_whole v z Hz).
    destruct (Z.ltb_spec z (- (2 ^ 53 - 1)));
      destruct (Z.ltb_spec (2 ^ 53 - 1) z);
      try lia. reflexivity.
Qed.

Lemma has_value_abs (v : number) (z : Z) :
  has_value v z -> has_value (Math_abs v) (Z.abs z).
Proof.
  unfold has_value.
  destruct v as [s | s | | s m e]; cbn [Math_abs mathematical];
    try contradiction.
  - cbn [xcompare]. unfold dyadic_compare. cbn [Z.min Z.sub Z.add Z.opp].
    rewrite !Z.pow_0_r, !Z.mul_1_r. intros H. apply Z.compare_eq in H.
    subst z. reflexivity.
  - destruct s; discriminate.
  - cbn [xcompare]. set (k := Z.min e 0).
    rewrite !(dyadic_compare_scaled _ _ _ _ k) by (subst k; lia).
    unfold scaled. intros H. apply Z.compare_eq in H.
    apply Z.compare_eq_iff.
    assert (P : 0 < 2 ^ (e - k)) by (apply pow2_pos; subst k; lia).
    assert (Q : 0 < 2 ^ (0 - k)) by (apply pow2_pos; subst k; lia).
    destruct s; nia.
Qed.
Lemma float_accepts_whole (v : number) (z : Z) :
  has_value v z -> Z.abs z <= 2 ^ 53 - 1 -> Types.float v = Return v.
Proof.
  intros Hz Hr. rewrite float_cases.
  pose proof (has_value_abs v z Hz) as Ha.
  assert (Hmax : has_value Types.float_max (9007198806847480 * 2 ^ 75)).
  { rewrite float_max_literal. apply has_value_finite_nonneg. lia. }
  rewrite (gt_has_value _ _ _ _ Ha Hmax).
  assert (P : 2 ^ 53 - 1 < 9007198806847480 * 2 ^ 75) by reflexivity.
  destruct (Z.ltb_spec (9007198806847480 * 2 ^ 75) (Z.abs z)); [lia | ].
  assert (H0 : has_value (number_of_Z 0) 0) by (vm_compute; reflexivity).
  rewrite (gt_has_value _ _ _ _ Ha H0).
  destruct (Z.ltb_spec 0 (Z.abs z)) as [Hpos | _]; [ | reflexivity].
  destruct (lt (Math_abs v) Types.float_min) eqn:Hm; [ | reflexivity].
  exfalso.
  assert (H1 : lt Types.float_min (number_of_Z 1) = true)
    by (vm_compute; reflexivity).
  pose proof (lt_trans _ _ _ Hm H1) as Ht.
  assert (Hone : has_value (number_of_Z 1) 1) by (vm_compute; reflexivity).
  rewrite (lt_has_value _ _ _ _ Ha Hone) in Ht.
  apply Z.ltb_lt in Ht. lia.
Qed.

(** The constructors widen: whatever [short] accepts [int] accepts,
    whatever [int] accepts [long] accepts, and whatever [long] accepts
    [float] and [double] accept, each returning the same value. *)

Theorem constructors_widen (v : number) :
  (Types.short v = Return v -> Types.int v = Return v)
  /\ (Types.int v = Return v -> Types.long v = Return v)
  /\ (Types.long v = Return v -> Types.float v = Return v)
  /\ (Types.float v = Return v -> Types.double v = Return v).
Proof.
  split; [ | split; [ | split]].
  - intros H. apply short_accepts in H. destruct H as (z & Hz & Hr).
    apply int_accepts. exists z. split; [exact Hz | lia].
  - intros H. apply int_accepts in H. destruct H as (z & Hz & Hr).
    apply long_accepts. exists z. split; [exact Hz | ].
    assert (P : 2147483647 < 2 ^ 53 - 1) by reflexivity. lia.
  - intros H. apply long_accepts in H. destruct H as (z & Hz & Hr).
    apply (float_accepts_whole v z Hz). lia.
  - intros _. reflexivity.
Qed.

Lemma constructors_widen_witness :
  Types.short (number_of_Z (-7)) = Return (number_of_Z (-7))
  /\ Types.float (number_of_Z (-7)) = Return (number_of_Z (-7)).
Proof.
  assert (H : Types.short (number_of_Z (-7)) = Return (number_of_Z (-7)))
    by (vm_compute; reflexivity).
  split; [exact H | ].
  destruct (constructors_widen (number_of_Z (-7))) as (H1 & H2 & H3 & _).
  apply H3, H2, H1, H.
Defined.

(** ** [isWithinBounds] *)

Lemma isWithinBounds_short (v : number) :
  Types.isWithinBounds v "short"
  = ge v (number_of_Z (-32768)) && le v (number_of_Z 32767).
Proof. reflexivity. Qed.

Lemma isWithinBounds_int (v : number) :
  Types.isWithinBounds v "int"
  = ge v (number_of_Z (-2147483648)) && le v (number_of_Z 2147483647).
Proof. reflexivity. Qed.

Lemma isWithinBounds_long (v : number) :
  Types.isWithinBounds v "long"
  = ge v MIN_SAFE_INTEGER && le v MAX_SAFE_INTEGER.
Proof. reflexivity. Qed.

(** A constructor for an integer type accepts a Number exactly when the
    Number is whole and [isWithinBounds] holds of it for that type. *)

Theorem constructor_iff_within_bounds (v : number) :
  (Types.short v = Return v
     <-> Number_isInteger v = true /\ Types.isWithinBounds v "short" = true)
  /\ (Types.int v = Return v
        <-> Number_isInteger v = true
            /\ Types.isWithinBounds v "int" = true)
  /\ (Types.long v = Return v
        <-> Number_isInteger v = true
            /\ Types.isWithinBounds v "long" = true).
Proof.
  rewrite isWithinBounds_short, isWithinBounds_int, isWithinBounds_long.
  rewrite short_accepts, int_accepts, long_accepts.
  rewrite !isInteger_has_value.
  split; [ | split]; split.
  - intros (z & Hz & Hr). split; [exists z; exact Hz | ].
    rewrite (ge_has_value _ _ _ _ Hz has_value_m32768).
    rewrite (le_has_value _ _ _ _ Hz has_value_32767).
    apply andb_true_iff. split; apply Z.leb_le; lia.
  - intros ((z & Hz) & Hb). exists z. split; [exact Hz | ].
    rewrite (ge_has_value _ _ _ _ Hz has_value_m32768) in Hb.
    rewrite (le_has_value _ _ _ _ Hz has_value_32767) in Hb.
    apply andb_true_iff in Hb. destruct Hb as [H1 H2].
    apply Z.leb_le in H1, H2. lia.
  - intros (z & Hz & Hr). split; [exists z; exact Hz | ].
    rewrite (ge_has_value _ _ _ _ Hz has_value_m2147483648).
    rewrite (le_has_value _ _ _ _ Hz has_value_2147483647).
    apply andb_true_iff. split; apply Z.leb_le; lia.
  - intros ((z & Hz) & Hb). exists z. split; [exact Hz | ].
    rewrite (ge_has_value _ _ _ _ Hz has_value_m2147483648) in Hb.
    rewrite (le_has_value _ _ _ _ Hz has_value_2147483647) in Hb.
    apply andb_true_iff in Hb. destruct Hb as [H1 H2].
    apply Z.leb_le in H1, H2. lia.
  - intros (z & Hz & Hr). split; [exists z; exact Hz | ].
    rewrite (ge_has_value _ _ _ _ Hz has_value_MIN_SAFE).
    rewrite (le_has_value _ _ _ _ Hz has_value_MAX_SAFE).
    apply andb_true_iff. split; apply Z.leb_le; lia.
  - intros ((z & Hz) & Hb). exists z. split; [exact Hz | ].
    rewrite (ge_has_value _ _ _ _ Hz has_value_MIN_SAFE) in Hb.
    rewrite (le_has_value _ _ _ _ Hz has_value_MAX_SAFE) in Hb.
    apply andb_true_iff in Hb. destruct Hb as [H1 H2].
    apply Z.leb_le in H1, H2. lia.
Qed.

(** Case analysis on which key of the metadata table a name is. *)

Ltac by_table_key typeName :=
  repeat match goal with
         | |- context [String.eqb ?k typeName] =>
             destruct (String.eqb_spec k typeName);
             [subst typeName; try discriminate; try reflexivity | ]
         end.

(** Only the three integer types have bounds: for every other type name,
    in the table or not, [isWithinBounds] is [true] of every Number
    (also of one that [float] rejects), and for the three integer types
    it is [false] of NaN and of the infinities. *)

Theorem isWithinBounds_unbounded (v : number) (typeName : string) :
  (Types.isIntegerType typeName = false ->
     Types.isWithinBounds v typeName = true)
  /\ (Types.isIntegerType typeName = true ->
      Types.isWithinBounds NaN typeName = false
      /\ Types.isWithinBounds Infinity typeName = false
      /\ Types.isWithinBounds (S754_infinity true) typeName = false)
  /\ (throws_RangeError (Types.float (number_of_decimal false 1 39))
      /\ Types.isWithinBounds (number_of_decimal false 1 39) "float" = true).
Proof.
  split; [ | split].
  - unfold Types.isWithinBounds, Types.isIntegerType, Get.
    unfold Types.TYPE_METADATA. cbn [own_property].
    intros H. by_table_key typeName.
    destruct (existsb (String.eqb typeName) ObjectPrototype); reflexivity.
  - unfold Types.isIntegerType. cbn [existsb]. intros H.
    repeat match type of H with
           | context [String.eqb typeName ?k] =>
               destruct (String.eqb_spec typeName k);
               [subst typeName; repeat split; vm_compute; reflexivity | ]
           end.
    discriminate.
  - split; [eexists; vm_compute; reflexivity | reflexivity].
Qed.

Lemma isWithinBounds_unbounded_witness :
  Types.isIntegerType "toString" = false
  /\ Types.isWithinBounds NaN "toString" = true
  /\ Types.isWithinBounds NaN "short" = false.
Proof.
  assert (H : Types.isIntegerType "toString" = false) by reflexivity.
  split; [exact H | split].
  - apply (proj1 (isWithinBounds_unbounded NaN "toString")). exact H.
  - apply (proj2 (isWithinBounds_unbounded NaN "short")). reflexivity.
Defined.

End WideningFacts.

(* ================================================================== *)
(** * Properties of the metadata table and of the predicates *)
(* ================================================================== *)

Module MetadataFacts.
Import JS Notions NumberFacts ConstructorFacts MapperFacts TableFacts WideningFacts.

(** The entries of the table, one by one. *)

Lemma own_property_TYPE_METADATA (typeName : string) (md : Types.TypeMetadata) :
  own_property Types.TYPE_METADATA typeName = Some md ->
  In (typeName, md) Types.TYPE_METADATA.
Proof.
  generalize Types.TYPE_METADATA. intros o.
  induction o as [ | [k a] o IH]; cbn [own_property]; [discriminate | ].
  destruct (String.eqb_spec k typeName) as [E | E].
  - intros H. injection H as <-. subst k. left. reflexivity.
  - intros H. right. apply IH. exact H.
Qed.

Ltac entry_ok :=
  cbn [Types.name Types.cppType Types.size Types.min Types.max];
  split; [reflexivity | ];
  split; [discriminate | ];
  split; [split; vm_compute; reflexivity | ];
  first [exact I | vm_compute; reflexivity].

(** Every entry of the metadata table is filed under its own name, has a
    target type that is not empty, a size that is a whole number not
    below -1, and either both bounds or none; where there are bounds the
    minimum is not above the maximum. *)

Theorem TYPE_METADATA_well_formed (typeName : string)
  (md : Types.TypeMetadata) :
  own_property Types.TYPE_METADATA typeName = Some md ->
  Types.name md = typeName
  /\ Types.cppType md <> ""
  /\ (Number_isInteger (Types.size md) = true
      /\ ge (Types.size md) (number_of_Z (-1)) = true)
  /\ match Types.min md, Types.max md with
     | Some lo, Some hi => le lo hi = true
     | None, None => True
     | _, _ => False
     end.
Proof.
  intros H. apply own_property_TYPE_METADATA in H.
  unfold Types.TYPE_METADATA in H. cbn [In] in H.
  repeat (destruct H as [H | H]; [injection H as <- <-; entry_ok | ]).
  contradiction.
Qed.

Lemma TYPE_METADATA_well_formed_witness :
  exists md, own_property Types.TYPE_METADATA "long" = Some md
             /\ Types.name md = "long".
Proof.
  eexists. split; [reflexivity | ].
  apply (TYPE_METADATA_well_formed "long" _ eq_refl).
Defined.

(** The predicates on type names: no name is both an integer and a
    floating type, every numeric name is a key of the table, and the
    integer names are exactly the keys whose entry has bounds. *)

Theorem classification_predicates (typeName : string) :
  (Types.isIntegerType typeName = true ->
     Types.isFloatingType typeName = false)
  /\ (Types.isNumericType typeName = true ->
      In typeName PrimitiveTypeNames
      /\ Types.isPrimitiveType typeName = true)
  /\ (forall md, own_property Types.TYPE_METADATA typeName = Some md ->
        (Types.isIntegerType typeName = true
           <-> Types.min md <> None /\ Types.max md <> None)).
Proof.
  split; [ | split].
  - unfold Types.isIntegerType, Types.isFloatingType. cbn [existsb].
    intros H.
    repeat match type of H with
           | context [String.eqb typeName ?k] =>
               destruct (String.eqb_spec typeName k);
               [subst typeName; reflexivity | ]
           end.
    discriminate.
  - unfold Types.isNumericType, Types.isIntegerType, Types.isFloatingType.
    cbn [existsb]. intros H.
    repeat match type of H with
           | context [String.eqb typeName ?k] =>
               destruct (String.eqb_spec typeName k);
               [subst typeName; split; [cbn [PrimitiveTypeNames In]; tauto | reflexivity] | ]
           end.
    discriminate.
  - intros md H. apply own_property_TYPE_METADATA in H.
    unfold Types.TYPE_METADATA in H. cbn [In] in H.
    repeat (destruct H as [H | H];
            [injection H as <- <-;
             cbn [Types.min Types.max];
             split;
             [ first [intros _; split; discriminate | discriminate]
             | first [intros _; reflexivity
                     | intros [E _]; exfalso; apply E; reflexivity] ]
            | ]).
    contradiction.
Qed.

Lemma classification_predicates_witness :
  Types.isNumericType "double" = true
  /\ In "double" PrimitiveTypeNames
  /\ Types.isFloatingType "short" = false.
Proof.
  assert (H : Types.isNumericType "double" = true) by reflexivity.
  destruct (classification_predicates "double") as (_ & Hn & _).
  destruct (classification_predicates "short") as (Hi & _ & _).
  split; [exact H | split].
  - apply (proj1 (Hn H)).
  - apply Hi. reflexivity.
Defined.

End MetadataFacts.

(* ================================================================== *)
(** * Properties across the engine and the type system *)
(* ================================================================== *)

Module EngineFacts.
Import JS Notions NumberFacts ParseFacts ConstructorFacts MapperFacts
  TableFacts WideningFacts TypeMapper.

Ltac by_name typeName :=
  repeat match goal with
         | |- context [String.eqb ?k typeName] =>
             destruct (String.eqb_spec k typeName);
             [subst typeName; try reflexivity; try congruence | ]
         end.

Section Host.

Variable nativeText : string -> string.

(** ** The tables of the engine against the metadata table *)

(** A bare type name maps, as an annotation, to what [getCppType] gives
    for it, except for [boolean] and [number], which only the engine
    knows (and the names of [Object.prototype]); a call of a constructor
    name infers what [getCppType] gives for the name, except for [void],
    which is no constructor. *)

Theorem tables_agree (typeName : string) :
  ~ In typeName ObjectPrototype ->
  (typeName <> "boolean" -> typeName <> "number" ->
     mapTypeNode nativeText (OtherTypeNode typeName)
     = Str (Types.getCppType typeName))
  /\ (forall args, typeName <> "void" ->
        inferFromExpression nativeText (CallExpression typeName args)
        = Str (Types.getCppType typeName))
  /\ mapTypeNode nativeText (OtherTypeNode "boolean") = Str "bool"
  /\ mapTypeNode nativeText (OtherTypeNode "number") = Str "double"
  /\ Types.getCppType "boolean" = "auto"
  /\ Types.getCppType "number" = "auto"
  /\ (forall args,
        inferFromExpression nativeText (CallExpression "void" args)
        = Str "auto")
  /\ Types.getCppType "void" = "void".
Proof.
  intros Hp.
  assert (He : existsb (String.eqb typeName) ObjectPrototype = false)
    by (apply existsb_eqb_absent; exact Hp).
  split; [ | split; [ | repeat split]].
  - intros Hb Hn. cbn [mapTypeNode getText].
    unfold lookup_or_auto, Types.getCppType, Get.
    unfold typeMap, Types.TYPE_METADATA. cbn [own_property].
    by_name typeName. rewrite He. reflexivity.
  - intros args Hv. cbn [inferFromExpression].
    unfold lookup_or_auto, Types.getCppType, Get.
    unfold typeConstructors, Types.TYPE_METADATA. cbn [own_property].
    by_name typeName. rewrite He. reflexivity.
Qed.

(** ** Inferred integer types against the constructors *)

(** For a numeric literal whose [text] (the value text the scanner
    stored, which is what the code reads) has no [.], with the value
    [parseFloat] gives for that text: the inferred type is [int16_t]
    exactly when [short] accepts the value, [int32_t] exactly
    when [int] accepts it and [short] throws a RangeError, [int64_t]
    exactly when [int] throws a RangeError, and [double] exactly when
    [int] throws a TypeError. *)

Theorem inferred_type_and_constructors (text : string) :
  includes text "." = false ->
  (inferFromExpression nativeText (NumericLiteral text) = Str "int16_t"
     <-> Types.short (parseFloat text) = Return (parseFloat text))
  /\ (inferFromExpression nativeText (NumericLiteral text) = Str "int32_t"
        <-> Types.int (parseFloat text) = Return (parseFloat text)
            /\ throws_RangeError (Types.short (parseFloat text)))
  /\ (inferFromExpression nativeText (NumericLiteral text) = Str "int64_t"
        <-> throws_RangeError (Types.int (parseFloat text)))
  /\ (inferFromExpression nativeText (NumericLiteral text) = Str "double"
        <-> throws_TypeError (Types.int (parseFloat text))).
Proof.
  intros Hdot. cbn [inferFromExpression].
  set (v := parseFloat text).
  destruct (Number_isInteger v) eqn:Hi.
  - destruct (proj1 (isInteger_has_value v) Hi) as [z Hz].
    rewrite (inferNumericLiteral_whole text z Hdot Hz).
    rewrite (short_whole v z Hz), (int_whole v z Hz).
    unfold throws_RangeError, throws_TypeError.
    destruct (Z.leb_spec (-32768) z); destruct (Z.leb_spec z 32767);
      destruct (Z.leb_spec (-2147483648) z);
      destruct (Z.leb_spec z 2147483647);
      destruct (Z.ltb_spec z (-32768)); destruct (Z.ltb_spec 32767 z);
      destruct (Z.ltb_spec z (-2147483648));
      destruct (Z.ltb_spec 2147483647 z);
      try lia; cbn [andb orb];
      repeat split;
      try discriminate; try reflexivity;
      try (intros _; eexists; reflexivity);
      try (intros [message Hm]; discriminate);
      try (intros [Hm _]; discriminate);
      try (intros [_ [message Hm]]; discriminate);
      try (eexists; reflexivity).
  - rewrite (inferNumericLiteral_not_whole text Hi).
    pose proof (proj2 (short_TypeError v) Hi) as [ms Hs].
    pose proof (proj2 (int_TypeError v) Hi) as [mi Hm].
    rewrite Hs, Hm. unfold throws_RangeError, throws_TypeError.
    repeat split;
      try discriminate;
      try (intros _; eexists; reflexivity);
      try (intros [message E]; discriminate);
      try (intros [E _]; discriminate).
Qed.

(** A numeric literal whose [text] is a run of digits spelling [N]: for
    [2^53 <= N < 10^21] it is inferred as [int64_t], and [long], the
    constructor of that type, throws a RangeError on the value of the
    text; for [2147483647 < N < 2^53] it is inferred as [int64_t] and
    [long] accepts the value.  (From [10^21] on the stored text is in
    exponent notation, not a run of digits.) *)

Theorem int64_literal_and_long (text : string) :
  text <> "" -> all_digits text = true ->
  (2 ^ 53 <= decimal_value text < 10 ^ 21 ->
     inferFromExpression nativeText (NumericLiteral text) = Str "int64_t"
     /\ throws_RangeError (Types.long (parseFloat text)))
  /\ (2147483647 < decimal_value text < 2 ^ 53 ->
      inferFromExpression nativeText (NumericLiteral text) = Str "int64_t"
      /\ Types.long (parseFloat text) = Return (parseFloat text)).
Proof.
  intros Hne Hd. cbn [inferFromExpression].
  destruct (inferNumericLiteral_digits text Hne Hd) as (_ & _ & H64).
  assert (P : 2147483647 < 2 ^ 53) by reflexivity.
  assert (Q : 10 ^ 21 < 2 ^ 1023) by reflexivity.
  assert (Q' : 2 ^ 53 < 10 ^ 21) by reflexivity.
  split; intros Hr.
  - split; [rewrite H64 by lia; reflexivity | ].
    destruct (parseFloat_digits_large text Hne Hd ltac:(lia))
      as (z & Hz & Hge).
    rewrite (long_whole (parseFloat text) z Hz).
    destruct (Z.ltb_spec z (- (2 ^ 53 - 1)));
      destruct (Z.ltb_spec (2 ^ 53 - 1) z); try lia;
      eexists; reflexivity.
  - split; [rewrite H64 by lia; reflexivity | ].
    pose proof (parseFloat_digits_small text Hne Hd ltac:(lia)) as Hz.
    apply long_accepts. exists (decimal_value text).
    split; [exact Hz | lia].
Qed.

(** ** Array literals *)

(** An array literal is typed by its first element alone, whatever
    follows it; nesting [n] levels deep gives [n] vectors around the type
    of the innermost first element, and an empty literal at the bottom
    gives a vector of [auto]. *)

Theorem array_literal_first_element :
  (forall first rest,
     inferFromExpression nativeText (ArrayLiteralExpression (first :: rest))
     = Str ("std::vector<"
              ++ ToString nativeText (inferFromExpression nativeText first)
              ++ ">"))
  /\ (forall rests e,
        ToString nativeText
          (inferFromExpression nativeText (nested_literal rests e))
        = vector_of (List.length rests)
            (ToString nativeText (inferFromExpression nativeText e)))
  /\ (forall rests,
        ToString nativeText
          (inferFromExpression nativeText
             (nested_literal rests (ArrayLiteralExpression [])))
        = vector_of (S (List.length rests)) "auto").
Proof.
  assert (Hn : forall rests e,
             ToString nativeText
               (inferFromExpression nativeText (nested_literal rests e))
             = vector_of (List.length rests)
                 (ToString nativeText (inferFromExpression nativeText e))).
  { intros rests e. induction rests as [ | rest rests IH]; [reflexivity | ].
    cbn [nested_literal inferFromExpression ToString List.length vector_of].
    rewrite IH. reflexivity. }
  split; [reflexivity | split; [exact Hn | ]].
  intros rests. rewrite Hn. cbn [inferFromExpression ToString].
  induction rests as [ | rest rests IH]; [reflexivity | ].
  cbn [List.length vector_of] in *. rewrite IH. reflexivity.
Qed.

(** ** Results that are strings *)

(** [getVariableType] returns a string for every declaration except one
    whose annotation is a bare name of [Object.prototype], or, without
    annotation, whose initializer is a call of such a name; function
    return types and parameter types likewise. *)

Theorem getVariableType_string (declaration : VariableDeclaration) :
  (forall T, var_type declaration = Some T ->
     ~ In (getText T) ObjectPrototype) ->
  (forall funcName args,
     var_type declaration = None ->
     initializer declaration = Some (CallExpression funcName args) ->
     ~ In funcName ObjectPrototype) ->
  exists s, getVariableType nativeText declaration = Str s.
Proof.
  intros Ht Hc. unfold getVariableType.
  destruct (var_type declaration) as [T | ].
  - apply mapTypeNode_string. apply Ht. reflexivity.
  - destruct (initializer declaration) as [init | ];
      [ | eexists; reflexivity].
    apply inferFromExpression_string. intros funcName args E. subst init.
    apply (Hc funcName args); reflexivity.
Qed.

End Host.

Lemma tables_agree_witness :
  mapTypeNode v8_nativeText (OtherTypeNode "string") = Str "std::string"
  /\ inferFromExpression v8_nativeText (CallExpression "long" []) = Str "int64_t".
Proof.
  assert (Hs : ~ In "string" ObjectPrototype).
  { simpl. intros H. repeat (destruct H as [H | H]; [discriminate | ]).
    exact H. }
  assert (Hl : ~ In "long" ObjectPrototype).
  { simpl. intros H. repeat (destruct H as [H | H]; [discriminate | ]).
    exact H. }
  split.
  - apply (proj1 (tables_agree v8_nativeText "string" Hs)); discriminate.
  - apply (proj1 (proj2 (tables_agree v8_nativeText "long" Hl))).
    discriminate.
Defined.

Lemma inferred_type_and_constructors_witness :
  includes "70000" "." = false
  /\ inferFromExpression v8_nativeText (NumericLiteral "70000") = Str "int32_t"
  /\ Types.int (parseFloat "70000") = Return (parseFloat "70000").
Proof.
  assert (Hd : includes "70000" "." = false) by reflexivity.
  assert (Hi : inferFromExpression v8_nativeText (NumericLiteral "70000")
               = Str "int32_t") by (vm_compute; reflexivity).
  split; [exact Hd | split; [exact Hi | ]].
  destruct (inferred_type_and_constructors v8_nativeText "70000" Hd)
    as (_ & H32 & _).
  apply (proj1 H32 Hi).
Defined.

Lemma int64_literal_and_long_witness :
  all_digits "9007199254740992" = true
  /\ inferFromExpression v8_nativeText (NumericLiteral "9007199254740992")
     = Str "int64_t"
  /\ throws_RangeError (Types.long (parseFloat "9007199254740992")).
Proof.
  assert (Hd : all_digits "9007199254740992" = true) by reflexivity.
  split; [exact Hd | ].
  apply (proj1 (int64_literal_and_long v8_nativeText "9007199254740992"
                  ltac:(discriminate) Hd)).
  vm_compute. split; [discriminate | reflexivity].
Defined.

Lemma getVariableType_string_witness :
  exists s,
    getVariableType v8_nativeText
      {| var_type := None;
         initializer := Some (CallExpression "short" [NumericLiteral "1"]) |}
    = Str s.
Proof.
  apply getVariableType_string.
  - intros T H. discriminate.
  - intros funcName args _ H. injection H as <- _.
    simpl. intros H. repeat (destruct H as [H | H]; [discriminate | ]).
    exact H.
Defined.

End EngineFacts.

(* ================================================================== *)
(** * Properties of the checker path and of signatures *)
(* ================================================================== *)

Module CheckerFacts.
Import JS Notions MapperFacts TableFacts EngineFacts TypeMapper.

(** The checker path tests the four flags in the order String, Number,
    Boolean, Void, the first one set deciding the result whatever the
    type's text; with none of them set it maps the text by name, and then
    agrees with the annotation path on every name but [boolean],
    [string], [number] and [void] (and the names of [Object.prototype]),
    which the checker path's table lacks and sends to [auto]. *)

Theorem typeToString_flags_then_name
  (fString fNumber fBoolean fVoid : Z) (nativeText : string -> string)
  (type : TsType) :
  (has_flag type fString = true ->
     typeToString fString fNumber fBoolean fVoid type = Str "std::string")
  /\ (has_flag type fString = false -> has_flag type fNumber = true ->
      typeToString fString fNumber fBoolean fVoid type = Str "double")
  /\ (has_flag type fString = false -> has_flag type fNumber = false ->
      has_flag type fBoolean = true ->
      typeToString fString fNumber fBoolean fVoid type = Str "bool")
  /\ (has_flag type fString = false -> has_flag type fNumber = false ->
      has_flag type fBoolean = false -> has_flag type fVoid = true ->
      typeToString fString fNumber fBoolean fVoid type = Str "void")
  /\ (has_flag type fString = false -> has_flag type fNumber = false ->
      has_flag type fBoolean = false -> has_flag type fVoid = false ->
      ~ In (typeString type) ObjectPrototype ->
      (~ In (typeString type) ["boolean"; "string"; "number"; "void"] ->
         typeToString fString fNumber fBoolean fVoid type
         = mapTypeNode nativeText (OtherTypeNode (typeString type)))
      /\ (In (typeString type) ["boolean"; "string"; "number"; "void"] ->
          typeToString fString fNumber fBoolean fVoid type = Str "auto")).
Proof.
  unfold typeToString.
  split; [intros ->; reflexivity | ].
  split; [intros -> ->; reflexivity | ].
  split; [intros -> -> ->; reflexivity | ].
  split; [intros -> -> -> ->; reflexivity | ].
  intros -> -> -> -> Hp.
  assert (He : existsb (String.eqb (typeString type)) ObjectPrototype = false)
    by (apply existsb_eqb_absent; exact Hp).
  destruct type as [fl name]. cbn [typeString] in *.
  split.
  - intros Hn. cbn [mapTypeNode getText In] in *.
    unfold lookup_or_auto, Get, checkerTypeMap, typeMap.
    cbn [own_property].
    repeat match goal with
           | |- context [String.eqb ?k name] =>
               destruct (String.eqb_spec k name);
               [subst name; try reflexivity; exfalso; tauto | ]
           end.
    rewrite He. reflexivity.
  - cbn [In]. intros Hn.
    repeat (destruct Hn as [Hn | Hn]; [subst name; reflexivity | ]).
    contradiction.
Qed.

Lemma typeToString_flags_then_name_witness :
  has_flag {| flags := 12; typeString := "int" |} TypeFlags_String = true
  /\ typeToString TypeFlags_String TypeFlags_Number TypeFlags_Boolean
       TypeFlags_Void {| flags := 12; typeString := "int" |}
     = Str "std::string"
  /\ typeToString TypeFlags_String TypeFlags_Number TypeFlags_Boolean
       TypeFlags_Void {| flags := 0; typeString := "short" |}
     = mapTypeNode v8_nativeText (OtherTypeNode "short").
Proof.
  assert (H : has_flag {| flags := 12; typeString := "int" |}
                TypeFlags_String = true) by reflexivity.
  split; [exact H | split].
  - apply (proj1 (typeToString_flags_then_name TypeFlags_String
                    TypeFlags_Number TypeFlags_Boolean TypeFlags_Void
                    v8_nativeText {| flags := 12; typeString := "int" |})).
    exact H.
  - destruct (typeToString_flags_then_name TypeFlags_String
                TypeFlags_Number TypeFlags_Boolean TypeFlags_Void
                v8_nativeText {| flags := 0; typeString := "short" |})
      as (_ & _ & _ & _ & Hname).
    apply Hname; try reflexivity.
    + simpl. intros E. repeat (destruct E as [E | E]; [discriminate | ]).
      exact E.
    + simpl. intros E. repeat (destruct E as [E | E]; [discriminate | ]).
      exact E.
Defined.

(** ** Signatures, one parameter more *)

Lemma concat_snoc (sep x : string) (l : list string) :
  l <> [] ->
  String.concat sep (l ++ [x])%list = String.concat sep l ++ sep ++ x.
Proof.
  induction l as [ | a l IH]; [contradiction | ]. intros _.
  destruct l as [ | b l]; [reflexivity | ].
  change (String.concat sep ((a :: b :: l) ++ [x])%list)
    with (a ++ sep ++ String.concat sep ((b :: l) ++ [x])%list).
  rewrite IH by discriminate.
  change (String.concat sep (a :: b :: l))
    with (a ++ sep ++ String.concat sep (b :: l)).
  rewrite !append_assoc. reflexivity.
Qed.

(** Declaring one more parameter at the end adds [, <type> <name>] before
    the closing parenthesis, or just [<type> <name>] when it is the first
    parameter: the separator stands between parameters only. *)

Theorem getCppSignature_one_more (F : Type) (name returnType : string)
  (parameters : list Types.Param) (p : Types.Param) (f : F) :
  let before :=
    Types.getCppSignature
      {| Types.fn_name := name; Types.returnType := returnType;
         Types.parameters := parameters; Types.func := f |} in
  let after :=
    Types.getCppSignature
      {| Types.fn_name := name; Types.returnType := returnType;
         Types.parameters := (parameters ++ [p])%list; Types.func := f |} in
  let rendered :=
    Types.getCppType (Types.param_type p) ++ " " ++ Types.param_name p in
  exists opening,
    before = opening ++ ")"
    /\ (parameters = [] ->
        opening = Types.getCppType returnType ++ " " ++ name ++ "("
        /\ after = opening ++ rendered ++ ")")
    /\ (parameters <> [] -> after = opening ++ ", " ++ rendered ++ ")").
Proof.
  cbv zeta. unfold Types.getCppSignature.
  cbn [Types.fn_name Types.returnType Types.parameters].
  set (render := fun q => Types.getCppType (Types.param_type q) ++ " "
                            ++ Types.param_name q).
  exists (Types.getCppType returnType ++ " " ++ name ++ "("
            ++ String.concat ", " (map render parameters)).
  split; [ | split].
  - rewrite !append_assoc. reflexivity.
  - intros ->. split; [reflexivity | ].
    cbn [map app String.concat]. subst render. cbv beta.
    rewrite !append_assoc. reflexivity.
  - intros Hne. rewrite map_app. cbn [map].
    rewrite concat_snoc
      by (destruct parameters; [contradiction | discriminate]).
    subst render. cbv beta. rewrite !append_assoc. reflexivity.
Qed.

Lemma getCppSignature_one_more_witness :
  exists opening,
    Types.getCppSignature
      {| Types.fn_name := "f"; Types.returnType := "void";
         Types.parameters :=
           [ {| Types.param_name := "a"; Types.param_type := "int" |} ];
         Types.func := tt |}
    = opening ++ ")"
    /\ Types.getCppSignature
         {| Types.fn_name := "f"; Types.returnType := "void";
            Types.parameters :=
              [ {| Types.param_name := "a"; Types.param_type := "int" |};
                {| Types.param_name := "c"; Types.param_type := "char" |} ];
            Types.func := tt |}
       = opening ++ ", " ++ "char c" ++ ")".
Proof.
  destruct (getCppSignature_one_more unit "f" "void"
              [ {| Types.param_name := "a"; Types.param_type := "int" |} ]
              {| Types.param_name := "c"; Types.param_type := "char" |} tt)
    as (opening & Hb & _ & Ha).
  exists opening. split; [exact Hb | ].
  apply Ha. discriminate.
Defined.

End CheckerFacts.

(* ================================================================== *)
(** * Edge cases of the constructors *)
(* ================================================================== *)

Module EdgeFacts.
Import JS Notions NumberFacts ConstructorFacts FloatFacts MapperFacts TableFacts.

(** [char] accepts exactly the strings of one code unit and returns them
    as they are; on the empty string and on every longer one it throws a
    TypeError. *)

Theorem char_contract (value : string) :
  (Types.char value = Return value <-> exists c, value = String c "")
  /\ (String.length value <> 1%nat <-> throws_TypeError (Types.char value))
  /\ throws_TypeError (Types.char "")
  /\ ~ throws_RangeError (Types.char value).
Proof.
  unfold Types.char, throws_TypeError, throws_RangeError.
  destruct value as [ | c [ | c' rest]]; cbn [String.length Nat.eqb negb].
  - split; [split; [discriminate | intros [c E]; discriminate] | ].
    split; [split; [intros _; eexists; reflexivity | intros _; discriminate] | ].
    split; [eexists; reflexivity | intros [m E]; discriminate].
  - split; [split; [intros _; exists c; reflexivity | reflexivity] | ].
    split; [split; [intros E; exfalso; apply E; reflexivity
                   | intros [m E]; discriminate] | ].
    split; [eexists; reflexivity | intros [m E]; discriminate].
  - split; [split; [discriminate | intros [c0 E]; discriminate] | ].
    split; [split; [intros _; eexists; reflexivity | intros _; discriminate] | ].
    split; [eexists; reflexivity | intros [m E]; discriminate].
Qed.

Lemma char_contract_witness :
  String.length "ab" <> 1%nat /\ throws_TypeError (Types.char "ab").
Proof.
  assert (H : String.length "ab" <> 1%nat) by discriminate.
  split; [exact H | ].
  apply (proj1 (proj1 (proj2 (char_contract "ab")))). exact H.
Defined.

(** NaN and the infinities: the three integer constructors throw a
    TypeError on each of them; [float] lets NaN through and throws the
    overflow RangeError on both infinities; [double] lets all three
    through. *)

Theorem constructors_on_special_values (s : bool) :
  (throws_TypeError (Types.int NaN)
   /\ throws_TypeError (Types.short NaN)
   /\ throws_TypeError (Types.long NaN))
  /\ (throws_TypeError (Types.int (S754_infinity s))
      /\ throws_TypeError (Types.short (S754_infinity s))
      /\ throws_TypeError (Types.long (S754_infinity s)))
  /\ Types.float NaN = Return NaN
  /\ throws_RangeError_tagged "float overflow: "
       (Types.float (S754_infinity s))
  /\ Types.double NaN = Return NaN
  /\ Types.double (S754_infinity s) = Return (S754_infinity s).
Proof.
  unfold throws_TypeError, throws_RangeError_tagged.
  split; [split; [ | split]; eexists; vm_compute; reflexivity | ].
  split; [split; [ | split]; eexists; vm_compute; reflexivity | ].
  split; [vm_compute; reflexivity | ].
  split; [destruct s; eexists; vm_compute; reflexivity | ].
  split; reflexivity.
Qed.

Lemma isPrimitiveType_own_witness :
  Types.isPrimitiveType "number" = false.
Proof.
  assert (Hp : ~ In "number" ObjectPrototype).
  { simpl. intros H. repeat (destruct H as [H | H]; [discriminate | ]).
    exact H. }
  destruct (Types.isPrimitiveType "number") eqn:E; [ | reflexivity].
  exfalso. apply (proj1 (isPrimitiveType_own "number" Hp)) in E.
  simpl in E. repeat (destruct E as [E | E]; [discriminate | ]). exact E.
Defined.

End EdgeFacts.
